(** * BetterHosts: a shallow embedding of [plugins/betterhosts/__init__.py]

    The plugin keeps one marker-delimited block of [IP<TAB>domain] lines in
    [/etc/hosts].  This development embeds the methods of the class
    [BetterHosts] as executable Rocq functions and states the properties of
    the hosts-file merge engine, the scheduler control and the enable /
    disable lifecycle over them.

    Python [str] values are modelled by [string]; a character is one code
    point in the range U+0000..U+00FF. *)

From Stdlib Require Import List String Ascii Bool Arith ZArith Lia.
Import ListNotations.

Open Scope string_scope.
Open Scope list_scope.

(* ================================================================== *)
(** ** Python string primitives used by the plugin *)
(* ================================================================== *)

Module PyStr.

Definition LF : ascii := "010"%char.
Definition CR : ascii := "013"%char.
Definition TAB : ascii := "009"%char.

(** [str.isspace] on one character, for code points below 256:
    U+0009..U+000D, U+001C..U+0020, U+0085 and U+00A0. *)
Definition isspace (c : ascii) : bool :=
  let n := nat_of_ascii c in
  (((9 <=? n) && (n <=? 13)) || ((28 <=? n) && (n <=? 32))
   || (n =? 133) || (n =? 160))%nat.

(** [s.lstrip()] *)
Fixpoint lstrip (s : string) : string :=
  match s with
  | EmptyString => EmptyString
  | String c s' => if isspace c then lstrip s' else s
  end.

(** [s.rstrip()] *)
Fixpoint rstrip (s : string) : string :=
  match s with
  | EmptyString => EmptyString
  | String c s' =>
      match rstrip s' with
      | EmptyString => if isspace c then EmptyString else String c EmptyString
      | r => String c r
      end
  end.

(** [s.strip()] *)
Definition strip (s : string) : string := rstrip (lstrip s).

(** [s.split()] with no argument: the maximal runs of non-whitespace
    characters, in order.  [cur] is the run being read. *)
Fixpoint split_from (cur : string) (s : string) : list string :=
  match s with
  | EmptyString =>
      match cur with EmptyString => [] | _ => [cur] end
  | String c s' =>
      if isspace c then
        match cur with
        | EmptyString => split_from EmptyString s'
        | _ => cur :: split_from EmptyString s'
        end
      else split_from (cur ++ String c EmptyString) s'
  end.

Definition split (s : string) : list string := split_from EmptyString s.

(** [sep.join(parts)] *)
Fixpoint join (sep : string) (parts : list string) : string :=
  match parts with
  | [] => EmptyString
  | [p] => p
  | p :: rest => p ++ sep ++ join sep rest
  end.

(** Truthiness of a [str]: non-empty. *)
Definition truthy (s : string) : bool :=
  match s with EmptyString => false | _ => true end.

(** What a text-mode file opened with the default [newline=None] hands
    to the reader: [\r\n] and a lone [\r] both become [\n]. *)
Fixpoint universal_newlines (s : string) : string :=
  match s with
  | EmptyString => EmptyString
  | String c s' =>
      if Ascii.eqb c CR then
        match s' with
        | String c' s'' =>
            if Ascii.eqb c' LF then String LF (universal_newlines s'')
            else String LF (universal_newlines s')
        | EmptyString => String LF EmptyString
        end
      else String c (universal_newlines s')
  end.

(** The lines of a decoded text, each keeping its final [\n]; the last
    one has none when the text does not end in [\n]. *)
Fixpoint keepends (s : string) : list string :=
  match s with
  | EmptyString => []
  | String c s' =>
      if Ascii.eqb c LF then String LF EmptyString :: keepends s'
      else
        match keepends s' with
        | [] => [String c EmptyString]
        | l :: ls => String c l :: ls
        end
  end.

(** [f.readlines()] on a file opened with [open(path, "r")]. *)
Definition readlines (raw : string) : list string :=
  keepends (universal_newlines raw).

(** The first [n] characters of [s]. *)
Fixpoint take (n : nat) (s : string) : string :=
  match n, s with
  | S n', String c s' => String c (take n' s')
  | _, _ => EmptyString
  end.

End PyStr.

Definition nl : string := String PyStr.LF EmptyString.
Definition tab : string := String PyStr.TAB EmptyString.


(** The two marker lines that delimit the block the plugin owns. *)
Definition START_MARKER : string := "# BetterHostsPlugin".
Definition END_MARKER : string := "# BetterHostsPlugin End".

(* ================================================================== *)
(** ** The world the plugin runs in *)
(* ================================================================== *)

(** Exceptions that the modelled calls raise. *)
Inductive exn : Type :=
| FileNotFoundError             (* open(.., "r") on a missing file *)
| PermissionError               (* open refused *)
| OSError_ENOSPC                (* a write found the device full *)
| ConnectionError               (* requests.get failed *)
| JSONDecodeError               (* response.json() / .get(..) failed *)
| KeyError                      (* entry['address'] on an entry without it *)
| SchedulerAlreadyRunningError  (* BackgroundScheduler.start() *)
| SchedulerNotRunningError      (* BackgroundScheduler.shutdown() *)
| AttributeError.               (* a method called on None *)

(** *** The file [/etc/hosts]

    [hosts] is the text of the file, [None] when the file does not exist.
    [readable] and [writable] say whether [open] for reading, respectively
    for writing or appending, is granted.  [free] is the number of
    characters the device can still take. *)
Record FS : Type := mkFS {
  hosts : option string;
  readable : bool;
  writable : bool;
  free : nat
}.

(** The text of the file, empty when it does not exist. *)
Definition text_of (f : FS) : string :=
  match hosts f with Some t => t | None => EmptyString end.

(** *** The remote services

    What [requests.get(url)] returns.  [json] abstracts
    [response.json().get("records", {}).get("A", [])]: either that chain of
    calls raises ([json_error]: the body is no JSON, or a [.get] receiver is
    no dict), or it yields the list of entries ([a_records]), empty when
    either key is absent.  An entry is [Some a] when [entry['address']] is
    [a], and [None] when the entry has no such key. *)
Inductive json_body : Type :=
| json_error
| a_records (entries : list (option string)).

Record Response : Type := mkResponse {
  status_code : Z;
  text : string;
  json : json_body
}.

(** The network: the response to a GET of each URL, [None] when the request
    itself raises. *)
Definition Net : Type := string -> option Response.

(** *** APScheduler

    [BackgroundScheduler] of APScheduler 3.x, reduced to what the plugin
    calls: [add_job] registers a job; [start] raises
    [SchedulerAlreadyRunningError] unless the scheduler is stopped;
    [shutdown] raises [SchedulerNotRunningError] when the scheduler is
    stopped, and otherwise stops it and empties its (in-memory) job store. *)
Record IntervalTrigger : Type := mkIntervalTrigger {
  weeks : Z;
  days : Z;
  hours : Z
}.

Inductive callable : Type := self_update_hosts.

Record Job : Type := mkJob { func : callable; trigger : IntervalTrigger }.

Record BackgroundScheduler : Type := mkScheduler {
  running : bool;
  jobs : list Job
}.

(** The recurring timers that can fire. *)
Definition armed_timers (s : option BackgroundScheduler) : list Job :=
  match s with
  | Some sch => if running sch then jobs sch else []
  | None => []
  end.

(** *** The plugin object *)
Record BetterHosts : Type := mkBetterHosts {
  _enabled : bool;
  _domain_list : list string;
  _github_host_url : string;
  _dns_api : string;
  _scheduler : option BackgroundScheduler;
  _schedule_interval : option string
}.

(** The class attributes: the state of a freshly created plugin. *)
Definition default_domain_list : list string :=
  ["api.themoviedb.org"; "image.tmdb.org"].

Definition new_BetterHosts : BetterHosts :=
  {| _enabled := false;
     _domain_list := default_domain_list;
     _github_host_url := "https://hosts.gitcdn.top/hosts.txt";
     _dns_api := "https://networkcalc.com/api/dns/lookup";
     _scheduler := None;
     _schedule_interval := None |}.

(** *** Observable effects, in the order they happen *)
Inductive message : Type :=
| cannot_get_github_hosts (e : exn)          (* logger.error, bulk fetch *)
| cannot_get_ip (domain : string) (e : exn)  (* logger.error, one domain *)
| hosts_updated                              (* logger.info, _write_hosts *)
| update_failed (e : exn)                    (* logger.error, _write_hosts *)
| nothing_to_update                          (* logger.info, update_hosts *)
| hosts_cleared                              (* logger.info, _clear_system_hosts *)
| clear_failed (e : exn)                     (* logger.error, _clear_system_hosts *)
| read_failed (e : exn)                      (* _read_system_hosts *)
| plugin_disabled                            (* logger.info, stop_service *)
| scheduler_started (interval : option string). (* logger.info, setup_scheduler *)

Inductive level : Type := INFO | ERROR.

Inductive file_mode : Type := mode_r | mode_a | mode_w.

Inductive event : Type :=
| Logged (l : level) (m : message)
| Requested (url : string)
| Opened (m : file_mode)
| Wrote (s : string)
| JobAdded (j : Job)
| Started
| ShutDown.

Record World : Type := mkWorld {
  self : BetterHosts;
  fs : FS;
  trace : list event
}.

(* ================================================================== *)
(** ** A state-and-exception monad for the method bodies *)
(* ================================================================== *)

Inductive outcome (A : Type) : Type :=
| Returned (a : A)
| Raised (e : exn).
Arguments Returned {A} a.
Arguments Raised {A} e.

Definition M (A : Type) : Type := World -> outcome A * World.

Definition ret {A} (a : A) : M A := fun w => (Returned a, w).

Definition bind {A B} (m : M A) (k : A -> M B) : M B :=
  fun w =>
    match m w with
    | (Returned a, w') => k a w'
    | (Raised e, w') => (Raised e, w')
    end.

Definition raise {A} (e : exn) : M A := fun w => (Raised e, w).

(** [try: body except Exception as e: handler e] *)
Definition try_except {A} (body : M A) (handler : exn -> M A) : M A :=
  fun w =>
    match body w with
    | (Returned a, w') => (Returned a, w')
    | (Raised e, w') => handler e w'
    end.

Declare Scope py_scope.
Delimit Scope py_scope with py.
Notation "x <- m ;; k" := (bind m (fun x => k))
  (at level 61, m at next level, right associativity) : py_scope.
Notation "m ;; k" := (bind m (fun _ => k))
  (at level 61, right associativity) : py_scope.
Open Scope py_scope.

Definition get_self : M BetterHosts := fun w => (Returned (self w), w).

Definition set_self (s : BetterHosts) : M unit :=
  fun w => (Returned tt, mkWorld s (fs w) (trace w)).

Definition emit (e : event) : M unit :=
  fun w => (Returned tt, mkWorld (self w) (fs w) (trace w ++ [e])).

Definition set_fs (f : FS) : M unit :=
  fun w => (Returned tt, mkWorld (self w) f (trace w)).

Definition get_fs : M FS := fun w => (Returned (fs w), w).

Definition logger_info (m : message) : M unit := emit (Logged INFO m).
Definition logger_error (m : message) : M unit := emit (Logged ERROR m).

(** *** File operations on [/etc/hosts] *)

(** [open("/etc/hosts", "r")] followed by reading the whole text. *)
Definition open_r : M string :=
  f <- get_fs ;;
  match hosts f with
  | None => raise FileNotFoundError
  | Some t =>
      if readable f then emit (Opened mode_r) ;; ret t
      else raise PermissionError
  end.

(** [open("/etc/hosts", "a")]: the file is created when missing. *)
Definition open_a : M unit :=
  f <- get_fs ;;
  if writable f then
    set_fs (mkFS (Some (text_of f)) (readable f) (writable f) (free f)) ;;
    emit (Opened mode_a)
  else raise PermissionError.

(** [open("/etc/hosts", "w")]: the file is created or emptied, which gives
    its characters back to the device. *)
Definition open_w : M unit :=
  f <- get_fs ;;
  if writable f then
    set_fs (mkFS (Some EmptyString) (readable f) (writable f)
                 (free f + String.length (text_of f))) ;;
    emit (Opened mode_w)
  else raise PermissionError.

(** The file after [s] is written at its end: what fits is written. *)
Definition fs_append (f : FS) (s : string) : FS :=
  mkFS (Some (text_of f ++ PyStr.take (free f) s)%string)
       (readable f) (writable f) (free f - String.length s).

(** [f.write(s)] on a file opened with "a" or "w": [s] goes to the end of
    the file.  On a full device the part that still fits is written and the
    write fails.  The writes go through to the file call by call; Python may
    hold the text back until the [with] block closes the file, which ends in
    the same file and the same exception inside the same [try]. *)
Definition f_write (s : string) : M unit :=
  emit (Wrote s) ;;
  f <- get_fs ;;
  set_fs (fs_append f s) ;;
  if (String.length s <=? free f)%nat then ret tt
  else raise OSError_ENOSPC.

(** *** Scheduler operations on [self._scheduler] *)

Definition set_scheduler (sch : option BackgroundScheduler) : M unit :=
  s <- get_self ;;
  set_self (mkBetterHosts (_enabled s) (_domain_list s) (_github_host_url s)
                          (_dns_api s) sch (_schedule_interval s)).

(** [self._scheduler.add_job(func, trigger)] *)
Definition add_job (f : callable) (t : IntervalTrigger) : M unit :=
  s <- get_self ;;
  match _scheduler s with
  | None => raise AttributeError
  | Some sch =>
      set_scheduler (Some (mkScheduler (running sch) (jobs sch ++ [mkJob f t]))) ;;
      emit (JobAdded (mkJob f t))
  end.

(** [self._scheduler.start()] *)
Definition start : M unit :=
  s <- get_self ;;
  match _scheduler s with
  | None => raise AttributeError
  | Some sch =>
      if running sch then raise SchedulerAlreadyRunningError
      else set_scheduler (Some (mkScheduler true (jobs sch))) ;; emit Started
  end.

(** [self._scheduler.shutdown()] *)
Definition shutdown : M unit :=
  s <- get_self ;;
  match _scheduler s with
  | None => raise AttributeError
  | Some sch =>
      if running sch then
        set_scheduler (Some (mkScheduler false [])) ;; emit ShutDown
      else raise SchedulerNotRunningError
  end.

(* ================================================================== *)
(** ** The methods of [BetterHosts] *)
(* ================================================================== *)

(** The configuration dict handed to [init_plugin]; a field is [None] when
    its key is absent. *)
Record Config : Type := mkConfig {
  enabled : option bool;
  domain_list : option string;
  schedule_interval : option string
}.

(** Truthiness of the dict: it has at least one key. *)
Definition has_keys (c : Config) : bool :=
  match enabled c, domain_list c, schedule_interval c with
  | None, None, None => false
  | _, _, _ => true
  end.

(** [d.get(key, default)] on one field. *)
Definition get {A} (field : option A) (default : A) : A :=
  match field with Some v => v | None => default end.

Section Methods.

(** The remote services are fixed while the methods run. *)
Variable net : Net.

(** [f"{self._dns_api}/{domain}"] *)
Definition dns_url (dns_api domain : string) : string :=
  (dns_api ++ "/" ++ domain)%string.

(** [requests.get(url)] *)
Definition requests_get (url : string) : M Response :=
  emit (Requested url) ;;
  match net url with
  | Some r => ret r
  | None => raise ConnectionError
  end.

(** [[entry['address'] for entry in entries]] *)
Fixpoint addresses (entries : list (option string)) : M (list string) :=
  match entries with
  | [] => ret []
  | Some a :: rest => ips <- addresses rest ;; ret (a :: ips)
  | None :: _ => raise KeyError
  end.

(** [[entry['address'] for entry in
      response.json().get("records", {}).get("A", [])]] *)
Definition ip_addresses_of (response : Response) : M (list string) :=
  match json response with
  | json_error => raise JSONDecodeError
  | a_records entries => addresses entries
  end.

(** Modelled from the spec: [_read_system_hosts] is called by
    [update_hosts] and defined nowhere in the source file.  The spec has
    [currentLines()], which "reads the file faithfully, preserving every
    byte-level line as-is", and says of the accessor that "any I/O failure
    (permission denied, file missing, disk full) is caught, logged, and the
    operation is abandoned": the lines of the file, or no lines and a
    logged error; nothing is written and nothing is raised. *)
Definition _read_system_hosts : M (list string) :=
  try_except
    (raw <- open_r ;; ret (PyStr.keepends raw))
    (fun e => logger_error (read_failed e) ;; ret []).

(** [_write_hosts(self, system_hosts, hosts_content)] *)
Definition _write_hosts (system_hosts hosts_content : list string) : M unit :=
  try_except
    (open_a ;;
     f_write (START_MARKER ++ nl)%string ;;
     f_write (PyStr.join nl hosts_content) ;;
     f_write (nl ++ END_MARKER ++ nl)%string ;;
     logger_info hosts_updated)
    (fun e => logger_error (update_failed e)).

(** The body of the [for domain in self._domain_list] loop; the pair is
    [(hosts_content, error_domains)]. *)
Definition lookup_domain (dns_api domain : string)
    (acc : list string * list string) : M (list string * list string) :=
  let (hosts_content, error_domains) := acc in
  try_except
    (response <- requests_get (dns_url dns_api domain) ;;
     if (status_code response =? 200)%Z then
       ip_addresses <- ip_addresses_of response ;;
       ret (hosts_content
              ++ map (fun ip => (ip ++ tab ++ domain)%string) ip_addresses,
            error_domains)
     else ret (hosts_content, error_domains ++ [domain]))
    (fun e =>
       logger_error (cannot_get_ip domain e) ;;
       ret (hosts_content, error_domains ++ [domain])).

Fixpoint lookup_domains (dns_api : string) (domains : list string)
    (acc : list string * list string) : M (list string * list string) :=
  match domains with
  | [] => ret acc
  | domain :: rest =>
      acc' <- lookup_domain dns_api domain acc ;;
      lookup_domains dns_api rest acc'
  end.

(** The fetching part of [update_hosts]: the bulk list, then the domains. *)
Definition fetch_hosts_content : M (list string * list string) :=
  s <- get_self ;;
  let hosts_content := [] in
  let error_domains := [] in
  hosts_content <-
    try_except
      (response <- requests_get (_github_host_url s) ;;
       let github_hosts := text response in
       ret (hosts_content ++ [github_hosts]))
      (fun e =>
         logger_error (cannot_get_github_hosts e) ;; ret hosts_content) ;;
  lookup_domains (_dns_api s) (_domain_list s) (hosts_content, error_domains).

(** [update_hosts(self)] *)
Definition update_hosts : M unit :=
  system_hosts <- _read_system_hosts ;;
  fetched <- fetch_hosts_content ;;
  let hosts_content := fst fetched in
  match hosts_content with
  | _ :: _ => _write_hosts system_hosts hosts_content
  | [] => logger_info nothing_to_update
  end.

(** The [for line in lines] loop of [_clear_system_hosts]. *)
Fixpoint clear_loop (lines : list string) (write : bool) : M unit :=
  match lines with
  | [] => ret tt
  | line :: rest =>
      if (PyStr.strip line =? START_MARKER)%string then
        clear_loop rest false
      else if (PyStr.strip line =? END_MARKER)%string then
        clear_loop rest true
      else if write then f_write line ;; clear_loop rest write
      else clear_loop rest write
  end.

(** [_clear_system_hosts(self)] *)
Definition _clear_system_hosts : M unit :=
  try_except
    (raw <- open_r ;;
     let lines := PyStr.readlines raw in
     open_w ;;
     clear_loop lines true ;;
     logger_info hosts_cleared)
    (fun e => logger_error (clear_failed e)).

(** The trigger [setup_scheduler] picks for a configured interval. *)
Definition interval_of (schedule_interval : option string)
    : option IntervalTrigger :=
  match schedule_interval with
  | Some i =>
      if (i =? "1hour")%string then Some (mkIntervalTrigger 0 0 1)
      else if (i =? "1day")%string then Some (mkIntervalTrigger 0 1 0)
      else if (i =? "1week")%string then Some (mkIntervalTrigger 1 0 0)
      else None
  | None => None
  end.

(** [setup_scheduler(self)] *)
Definition setup_scheduler : M unit :=
  s <- get_self ;;
  match _scheduler s with
  | None => set_scheduler (Some (mkScheduler false []))
  | Some _ => ret tt
  end ;;
  match interval_of (_schedule_interval s) with
  | Some interval =>
      add_job self_update_hosts interval ;;
      start ;;
      logger_info (scheduler_started (_schedule_interval s))
  | None => ret tt
  end.

(** [stop_service(self)] *)
Definition stop_service : M unit :=
  s <- get_self ;;
  match _scheduler s with
  | Some _ => shutdown
  | None => ret tt
  end ;;
  _clear_system_hosts ;;
  logger_info plugin_disabled.

(** [init_plugin(self, config)] *)
Definition init_plugin (config : option Config) : M unit :=
  match config with
  | None => ret tt
  | Some config =>
      if has_keys config then
        s <- get_self ;;
        let enabled_ := get (enabled config) false in
        let custom_domains := get (domain_list config) EmptyString in
        let domains :=
          if PyStr.truthy custom_domains then PyStr.split custom_domains
          else _domain_list s in
        let interval := get (schedule_interval config) "1hour"%string in
        set_self (mkBetterHosts enabled_ domains (_github_host_url s)
                                (_dns_api s) (_scheduler s) (Some interval)) ;;
        if enabled_ then update_hosts ;; setup_scheduler
        else _clear_system_hosts
      else ret tt
  end.

(** One armed timer fires: the scheduler runs [update_hosts] in its
    executor, which keeps any exception of the job to itself. *)
Definition fire : M unit :=
  s <- get_self ;;
  match armed_timers (_scheduler s) with
  | _ :: _ => try_except update_hosts (fun _ => ret tt)
  | [] => ret tt
  end.

End Methods.

(* ================================================================== *)
(** ** The strip loop as a function on lines *)
(* ================================================================== *)

Definition is_start (line : string) : bool :=
  (PyStr.strip line =? START_MARKER)%string.

Definition is_end (line : string) : bool :=
  (PyStr.strip line =? END_MARKER)%string.

Definition is_marker (line : string) : bool := is_start line || is_end line.

(** The lines that [clear_loop] hands to [f.write], in order. *)
Fixpoint kept_lines (lines : list string) (write : bool) : list string :=
  match lines with
  | [] => []
  | line :: rest =>
      if is_start line then kept_lines rest false
      else if is_end line then kept_lines rest true
      else if write then line :: kept_lines rest write
      else kept_lines rest write
  end.

(** [for line in lines: f.write(line)] *)
Fixpoint write_lines (lines : list string) : M unit :=
  match lines with
  | [] => ret tt
  | line :: rest => f_write line ;; write_lines rest
  end.

(** The spec's [stripOwnedBlock], written after its words: drop the lines
    from the first start marker through the first end marker after it, or
    through the end of the file when there is none; without a start marker
    the lines are returned as they are. *)
Fixpoint after_first_end (lines : list string) : list string :=
  match lines with
  | [] => []
  | line :: rest => if is_end line then rest else after_first_end rest
  end.


Definition no_markers (lines : list string) : bool :=
  forallb (fun l => negb (is_marker l)) lines.

Definition no_end_marker (lines : list string) : bool :=
  forallb (fun l => negb (is_end l)) lines.

(* ================================================================== *)
(** ** The merge engine as the spec words it *)
(* ================================================================== *)

(** The addresses of a list of entries; none when an entry lacks one. *)
Fixpoint all_addresses (entries : list (option string)) : option (list string) :=
  match entries with
  | [] => Some []
  | Some a :: rest =>
      match all_addresses rest with
      | Some ips => Some (a :: ips)
      | None => None
      end
  | None :: _ => None
  end.

(** The spec's [resolveDomain(d) -> list<IPAddress> | FetchError]; [None] is
    the [FetchError]: the request raised, the status is not 200, or the
    records could not be read. *)
Definition resolveDomain (net : Net) (dns_api domain : string)
    : option (list string) :=
  match net (dns_url dns_api domain) with
  | None => None
  | Some r =>
      if (status_code r =? 200)%Z then
        match json r with
        | json_error => None
        | a_records entries => all_addresses entries
        end
      else None
  end.

(** One HostEntry line ["{address}\t{domain}"] per address. *)
Definition host_entries (domain : string) (ips : list string) : list string :=
  map (fun ip => (ip ++ tab ++ domain)%string) ips.

(** The lines a domain contributes to the block. *)
Definition domain_lines (net : Net) (dns_api domain : string) : list string :=
  match resolveDomain net dns_api domain with
  | Some ips => host_entries domain ips
  | None => []
  end.

(** The spec's [fetchBulkList() -> text | FetchError], as a segment. *)
Definition bulk_segment (net : Net) (url : string) : list string :=
  match net url with
  | Some r => [text r]
  | None => []
  end.

(** The spec's [buildBlock]: the bulk text first, then the lines of each
    domain in the order of the domain list. *)
Definition buildBlock (net : Net) (s : BetterHosts) : list string :=
  bulk_segment net (_github_host_url s)
  ++ flat_map (domain_lines net (_dns_api s)) (_domain_list s).

(** The text [_write_hosts] appends for a block. *)
Definition block_text (hosts_content : list string) : string :=
  ((START_MARKER ++ nl) ++ PyStr.join nl hosts_content
   ++ (nl ++ END_MARKER ++ nl))%string.

(** The exception, if any, that the lookup of a domain raises inside the
    [try] of the domain loop. *)
Definition fetch_exception (net : Net) (dns_api domain : string) : option exn :=
  match net (dns_url dns_api domain) with
  | None => Some ConnectionError
  | Some r =>
      if (status_code r =? 200)%Z then
        match json r with
        | json_error => Some JSONDecodeError
        | a_records entries =>
            match all_addresses entries with
            | Some _ => None
            | None => Some KeyError
            end
        end
      else None
  end.

(** The file as [open(.., "a")] leaves it: created when it was missing. *)
Definition fs_opened (f : FS) : FS :=
  mkFS (Some (text_of f)) (readable f) (writable f) (free f).

(** The text of a list of lines. *)
Fixpoint concat_lines (lines : list string) : string :=
  match lines with
  | [] => EmptyString
  | l :: rest => (l ++ concat_lines rest)%string
  end.

(** The file after one update cycle: untouched when nothing was fetched or
    the file may not be opened, and otherwise extended by the block. *)
Definition fs_after_update (net : Net) (w : World) : FS :=
  match buildBlock net (self w) with
  | [] => fs w
  | hosts_content =>
      if writable (fs w)
      then fs_append (fs_opened (fs w)) (block_text hosts_content)
      else fs w
  end.

(** The file after [_clear_system_hosts]: rewritten with the kept lines when
    it can be read and opened for writing, and untouched otherwise. *)
Definition fs_after_clear (f : FS) : FS :=
  match hosts f with
  | Some t =>
      if readable f && writable f then
        let kept := concat_lines (kept_lines (PyStr.readlines t) true) in
        mkFS (Some kept) (readable f) (writable f)
             (free f + String.length t - String.length kept)
      else f
  | None => f
  end.

(** No character of [s] is whitespace. *)
Fixpoint no_space (s : string) : bool :=
  match s with
  | EmptyString => true
  | String c s' => negb (PyStr.isspace c) && no_space s'
  end.

(** The plugin with another domain list. *)
Definition with_domain_list (s : BetterHosts) (domains : list string)
    : BetterHosts :=
  mkBetterHosts (_enabled s) domains (_github_host_url s) (_dns_api s)
                (_scheduler s) (_schedule_interval s).

(** The domain list without one domain. *)
Definition without (domain : string) (domains : list string) : list string :=
  filter (fun d => negb (d =? domain)%string) domains.

(** *** Reading the trace *)

(** Events that change [/etc/hosts]. *)
Definition is_file_write (e : event) : bool :=
  match e with
  | Wrote _ | Opened mode_a | Opened mode_w => true
  | _ => false
  end.

(** The world after some further events that leave plugin and file alone. *)
Definition with_events (w : World) (evs : list event) : World :=
  mkWorld (self w) (fs w) (trace w ++ evs).

(** The number of start-marker lines in the file. *)
Definition start_marker_count (f : FS) : nat :=
  List.length (filter is_start (PyStr.readlines (text_of f))).

(* ================================================================== *)
(** ** Concrete worlds *)
(* ================================================================== *)

(** The end-to-end scenario of the spec: the bulk list holds one line, and
    [x.example.com] resolves to one address. *)
Definition scenario_net : Net := fun url =>
  if (url =? "https://hosts.gitcdn.top/hosts.txt")%string then
    Some (mkResponse 200 ("1.2.3.4" ++ tab ++ "foo.bar") json_error)
  else if (url =? "https://networkcalc.com/api/dns/lookup/x.example.com")%string
  then Some (mkResponse 200 EmptyString (a_records [Some "5.6.7.8"%string]))
  else None.

(** The same services when the lookup of [x.example.com] answers 500. *)
Definition failing_lookup_net : Net := fun url =>
  if (url =? "https://hosts.gitcdn.top/hosts.txt")%string then
    Some (mkResponse 200 ("1.2.3.4" ++ tab ++ "foo.bar") json_error)
  else if (url =? "https://networkcalc.com/api/dns/lookup/x.example.com")%string
  then Some (mkResponse 500 EmptyString json_error)
  else None.

(** No service answers. *)
Definition offline_net : Net := fun _ => None.

Definition scenario_config : Config :=
  mkConfig (Some true) (Some "x.example.com"%string) (Some "1hour"%string).

Definition daily_config : Config :=
  mkConfig (Some true) (Some "x.example.com"%string) (Some "1day"%string).

Definition odd_interval_config : Config :=
  mkConfig (Some true) (Some "x.example.com"%string) (Some "2hours"%string).

Definition disabled_config : Config :=
  mkConfig (Some false) (Some "x.example.com"%string) (Some "1hour"%string).

Definition no_domains_config : Config :=
  mkConfig (Some false) (Some EmptyString) (Some "1hour"%string).

Definition localhost_line : string := ("127.0.0.1 localhost" ++ nl)%string.

(** A freshly created plugin next to a hosts file with the given text. *)
Definition fresh_world (hosts_text : string) (free_chars : nat) : World :=
  mkWorld new_BetterHosts (mkFS (Some hosts_text) true true free_chars) [].

(** The plugin of the scenario, configured and not yet run. *)
Definition scenario_plugin : BetterHosts :=
  mkBetterHosts true ["x.example.com"%string]
                "https://hosts.gitcdn.top/hosts.txt"
                "https://networkcalc.com/api/dns/lookup"
                None (Some "1hour"%string).

Definition scenario_world : World :=
  mkWorld scenario_plugin (mkFS (Some localhost_line) true true 1000) [].


(** The scenario with a hosts file that may not be written. *)
Definition read_only_world : World :=
  mkWorld scenario_plugin (mkFS (Some localhost_line) true false 1000) [].

(** The block of the scenario. *)
Definition scenario_block : list string :=
  [("1.2.3.4" ++ tab ++ "foo.bar")%string;
   ("5.6.7.8" ++ tab ++ "x.example.com")%string].

(** A file holding two blocks, as two update cycles leave it. *)
Definition two_blocks : list string :=
  [(START_MARKER ++ nl)%string; ("1.2.3.4" ++ tab ++ "foo.bar" ++ nl)%string;
   (END_MARKER ++ nl)%string;
   (START_MARKER ++ nl)%string; ("5.6.7.8" ++ tab ++ "foo.bar" ++ nl)%string;
   (END_MARKER ++ nl)%string].

(* ================================================================== *)
(** ** Closed forms of the traces *)
(* ================================================================== *)

(** The [Wrote] events of [for line in lines: f.write(line)] on a device
    with [free_chars] characters left: the loop stops at the write that does
    not fit. *)
Fixpoint wrote_events (free_chars : nat) (lines : list string) : list event :=
  match lines with
  | [] => []
  | l :: rest =>
      Wrote l ::
      (if (String.length l <=? free_chars)%nat
       then wrote_events (free_chars - String.length l) rest
       else [])
  end.

(** What [_read_system_hosts] leaves in the trace. *)
Definition read_events (f : FS) : list event :=
  match hosts f with
  | None => [Logged ERROR (read_failed FileNotFoundError)]
  | Some _ =>
      if readable f then [Opened mode_r]
      else [Logged ERROR (read_failed PermissionError)]
  end.

(** What one pass of the domain loop leaves in the trace. *)
Definition domain_events (net : Net) (dns_api domain : string) : list event :=
  Requested (dns_url dns_api domain)
  :: match fetch_exception net dns_api domain with
     | Some e => [Logged ERROR (cannot_get_ip domain e)]
     | None => []
     end.

(** What the fetching part of [update_hosts] leaves in the trace. *)
Definition fetch_events (net : Net) (s : BetterHosts) : list event :=
  Requested (_github_host_url s)
  :: match net (_github_host_url s) with
     | None => [Logged ERROR (cannot_get_github_hosts ConnectionError)]
     | Some _ => []
     end
  ++ flat_map (domain_events net (_dns_api s)) (_domain_list s).

(** The domains [update_hosts] collects in [error_domains]. *)
Definition failed_domains (net : Net) (s : BetterHosts) : list string :=
  filter (fun d => match resolveDomain net (_dns_api s) d with
                   | None => true
                   | Some _ => false
                   end)
         (_domain_list s).

(** What [_write_hosts] leaves in the trace. *)
Definition write_hosts_events (f : FS) (hosts_content : list string)
    : list event :=
  if writable f then
    Opened mode_a
    :: wrote_events (free f)
         [(START_MARKER ++ nl)%string; PyStr.join nl hosts_content;
          (nl ++ END_MARKER ++ nl)%string]
    ++ [if (String.length (block_text hosts_content) <=? free f)%nat
        then Logged INFO hosts_updated
        else Logged ERROR (update_failed OSError_ENOSPC)]
  else [Logged ERROR (update_failed PermissionError)].

(** What one run of [update_hosts] leaves in the trace. *)
Definition update_events (net : Net) (w : World) : list event :=
  read_events (fs w)
  ++ fetch_events net (self w)
  ++ match buildBlock net (self w) with
     | [] => [Logged INFO nothing_to_update]
     | hosts_content => write_hosts_events (fs w) hosts_content
     end.

(** What [_clear_system_hosts] leaves in the trace. *)
Definition clear_events (f : FS) : list event :=
  match hosts f with
  | None => [Logged ERROR (clear_failed FileNotFoundError)]
  | Some t =>
      if readable f then
        if writable f then
          [Opened mode_r; Opened mode_w]
          ++ map Wrote (kept_lines (PyStr.readlines t) true)
          ++ [Logged INFO hosts_cleared]
        else [Opened mode_r; Logged ERROR (clear_failed PermissionError)]
      else [Logged ERROR (clear_failed PermissionError)]
  end.

(** The URLs requested in a trace, in order. *)
Definition requests_of (evs : list event) : list string :=
  flat_map (fun e => match e with Requested url => [url] | _ => [] end) evs.

(** The error records of a trace, in order. *)
Definition errors_of (evs : list event) : list message :=
  flat_map (fun e => match e with Logged ERROR m => [m] | _ => [] end) evs.

(* ================================================================== *)
(** ** Shapes of texts and lines *)
(* ================================================================== *)

(** No character of [s] is a carriage return. *)
Fixpoint no_cr (s : string) : bool :=
  match s with
  | EmptyString => true
  | String c s' => negb (Ascii.eqb c PyStr.CR) && no_cr s'
  end.

(** [s] ends in a line feed. *)
Fixpoint ends_with_newline (s : string) : bool :=
  match s with
  | EmptyString => false
  | String c s' =>
      match s' with
      | EmptyString => Ascii.eqb c PyStr.LF
      | _ => ends_with_newline s'
      end
  end.

(** [s] is empty or ends in a line feed: every line of it is terminated. *)
Definition complete_text (s : string) : bool :=
  match s with
  | EmptyString => true
  | _ => ends_with_newline s
  end.

(** [l] is non-empty and has no line feed before its last character. *)
Fixpoint line_shape (l : string) : bool :=
  match l with
  | EmptyString => false
  | String c l' =>
      match l' with
      | EmptyString => true
      | _ => negb (Ascii.eqb c PyStr.LF) && line_shape l'
      end
  end.

(** The lines are as [readlines] gives them: each has the shape of a line,
    and all but the last are terminated. *)
Fixpoint lines_ok (lines : list string) : bool :=
  match lines with
  | [] => true
  | l :: rest =>
      line_shape l
      && match rest with [] => true | _ => ends_with_newline l end
      && lines_ok rest
  end.

(* ================================================================== *)
(** ** The configuration form *)
(* ================================================================== *)

(** The plugin with another scheduler. *)
Definition with_scheduler (s : BetterHosts)
    (sch : option BackgroundScheduler) : BetterHosts :=
  mkBetterHosts (_enabled s) (_domain_list s) (_github_host_url s)
                (_dns_api s) sch (_schedule_interval s).

(** The plugin as [init_plugin] sets it before it runs anything. *)
Definition configured (s : BetterHosts) (config : Config) : BetterHosts :=
  mkBetterHosts
    (get (enabled config) false)
    (if PyStr.truthy (get (domain_list config) EmptyString)
     then PyStr.split (get (domain_list config) EmptyString)
     else _domain_list s)
    (_github_host_url s) (_dns_api s) (_scheduler s)
    (Some (get (schedule_interval config) "1hour"%string)).

(** Python values as [get_form] builds them: strings, integers, booleans,
    lists and dicts (in the order of the literal). *)
#[local] Unset Elimination Schemes.
Inductive pyval : Type :=
| py_str (s : string)
| py_int (n : Z)
| py_bool (b : bool)
| py_list (items : list pyval)
| py_dict (items : list (string * pyval)).
#[local] Set Elimination Schemes.

(** [get_form(self)]: the page description and the default data.  The
    labels are the UTF-8 bytes of the source text. *)
Definition get_form : list pyval * pyval :=
  ([py_dict
      [("component", py_str "VForm");
       ("content", py_list
          [py_dict
             [("component", py_str "VRow");
              ("content", py_list
                 [py_dict
                    [("component", py_str "VCol");
                     ("props", py_dict [("cols", py_int 12); ("md", py_int 6)]);
                     ("content", py_list
                        [py_dict
                           [("component", py_str "VSwitch");
                            ("props", py_dict
                               [("model", py_str "enabled");
                                ("label", py_str "启用插件")])]])]])];
           py_dict
             [("component", py_str "VRow");
              ("content", py_list
                 [py_dict
                    [("component", py_str "VCol");
                     ("props", py_dict [("cols", py_int 12)]);
                     ("content", py_list
                        [py_dict
                           [("component", py_str "VTextarea");
                            ("props", py_dict
                               [("model", py_str "domain_list");
                                ("label", py_str "自定义域名");
                                ("rows", py_int 5);
                                ("placeholder",
                                 py_str "输入自定义域名，每行一个")])]])]])];
           py_dict
             [("component", py_str "VRow");
              ("content", py_list
                 [py_dict
                    [("component", py_str "VCol");
                     ("props", py_dict [("cols", py_int 12)]);
                     ("content", py_list
                        [py_dict
                           [("component", py_str "VSelect");
                            ("props", py_dict
                               [("model", py_str "schedule_interval");
                                ("label", py_str "定时更新频率");
                                ("items", py_list
                                   [py_dict [("text", py_str "1小时");
                                             ("value", py_str "1hour")];
                                    py_dict [("text", py_str "1天");
                                             ("value", py_str "1day")];
                                    py_dict [("text", py_str "1周");
                                             ("value", py_str "1week")]])])]])]])]])]],
   py_dict
     [("enabled", py_bool false);
      ("domain_list", py_str "");
      ("schedule_interval", py_str "1hour")]).

(** The strings stored under [key] anywhere in a value, in order. *)
Fixpoint values_at (key : string) (v : pyval) : list string :=
  match v with
  | py_list items => flat_map (values_at key) items
  | py_dict items =>
      flat_map
        (fun kv =>
           match kv with
           | (k, x) =>
               (if (k =? key)%string
                then match x with py_str s => [s] | _ => [] end
                else [])
               ++ values_at key x
           end)
        items
  | _ => []
  end.

(** The keys of a dict. *)
Definition keys_of (v : pyval) : list string :=
  match v with
  | py_dict items => map fst items
  | _ => []
  end.

(** [d.get(key)] *)
Fixpoint dict_get (key : string) (items : list (string * pyval))
    : option pyval :=
  match items with
  | [] => None
  | (k, x) :: rest => if (k =? key)%string then Some x else dict_get key rest
  end.

(** A data dict as the configuration [init_plugin] receives. *)
Definition config_of (v : pyval) : option Config :=
  match v with
  | py_dict items =>
      Some (mkConfig
              (match dict_get "enabled" items with
               | Some (py_bool b) => Some b
               | _ => None
               end)
              (match dict_get "domain_list" items with
               | Some (py_str t) => Some t
               | _ => None
               end)
              (match dict_get "schedule_interval" items with
               | Some (py_str t) => Some t
               | _ => None
               end))
  | _ => None
  end.

(* ================================================================== *)
(** ** Further concrete worlds *)
(* ================================================================== *)

(** [sub in s] *)
Fixpoint starts_with (p s : string) : bool :=
  match p, s with
  | EmptyString, _ => true
  | String a p', String b s' => Ascii.eqb a b && starts_with p' s'
  | String _ _, EmptyString => false
  end.

Fixpoint contains (sub s : string) : bool :=
  starts_with sub s
  || match s with
     | EmptyString => false
     | String _ s' => contains sub s'
     end.


(** The bulk list names [x.example.com]; the lookup of that domain is
    answered 500. *)
Definition bulk_names_domain_net : Net := fun url =>
  if (url =? "https://hosts.gitcdn.top/hosts.txt")%string then
    Some (mkResponse 200 ("1.2.3.4" ++ tab ++ "x.example.com") json_error)
  else if (url =? "https://networkcalc.com/api/dns/lookup/x.example.com")%string
  then Some (mkResponse 500 EmptyString json_error)
  else None.

(** The bulk request is answered 404 with an error page; every lookup
    raises. *)
Definition bulk_not_found_net : Net := fun url =>
  if (url =? "https://hosts.gitcdn.top/hosts.txt")%string then
    Some (mkResponse 404 "404 page not found" json_error)
  else None.

(** A configuration that names one domain and leaves the plugin disabled. *)
Definition custom_domain_config : Config :=
  mkConfig (Some false) (Some "a.com"%string) (Some "1hour"%string).

(* ================================================================== *)
(** ** Properties of the strip loop *)
(* ================================================================== *)


Lemma clear_loop_kept_lines (lines : list string) :
  forall write w, clear_loop lines write w = write_lines (kept_lines lines write) w.
Proof.
  induction lines as [|line rest IH]; intros write w; simpl.
  - reflexivity.
  - fold (is_start line). fold (is_end line).
    destruct (is_start line); [apply IH|].
    destruct (is_end line); [apply IH|].
    destruct write; [|apply IH].
    simpl. unfold bind. destruct (f_write line w) as [[[]|e] w']; [apply IH|reflexivity].
Qed.

Lemma kept_lines_no_markers (pre rest : list string) :
  no_markers pre = true ->
  kept_lines (pre ++ rest) true = pre ++ kept_lines rest true.
Proof.
  induction pre as [|l pre IH]; simpl; intros H; [reflexivity|].
  apply andb_true_iff in H. destruct H as [Hl Hpre].
  unfold is_marker in Hl. apply negb_true_iff, orb_false_iff in Hl.
  destruct Hl as [-> ->]. rewrite (IH Hpre). reflexivity.
Qed.

Lemma kept_lines_inside_block (mid rest : list string) :
  no_end_marker mid = true ->
  kept_lines (mid ++ rest) false = kept_lines rest false.
Proof.
  induction mid as [|l mid IH]; simpl; intros H; [reflexivity|].
  apply andb_true_iff in H. destruct H as [Hl Hmid].
  apply negb_true_iff in Hl. rewrite Hl.
  destruct (is_start l); apply (IH Hmid).
Qed.


Lemma kept_lines_identity (lines : list string) :
  no_markers lines = true -> kept_lines lines true = lines.
Proof.
  intros H. rewrite <- (app_nil_r lines) at 1.
  rewrite (kept_lines_no_markers lines [] H). simpl. apply app_nil_r.
Qed.




Lemma after_first_end_unterminated (rest : list string) :
  no_end_marker rest = true -> after_first_end rest = [].
Proof.
  induction rest as [|l rest IH]; simpl; intros H; [reflexivity|].
  apply andb_true_iff in H. destruct H as [Hl Hrest].
  apply negb_true_iff in Hl. rewrite Hl. apply (IH Hrest).
Qed.

(* ================================================================== *)
(** ** Equations of the primitive actions *)
(* ================================================================== *)

Lemma with_events_nil (w : World) : with_events w [] = w.
Proof. destruct w. unfold with_events. simpl. rewrite app_nil_r. reflexivity. Qed.

Lemma with_events_app (w : World) (e1 e2 : list event) :
  with_events (with_events w e1) e2 = with_events w (e1 ++ e2).
Proof. unfold with_events. simpl. rewrite app_assoc. reflexivity. Qed.

Lemma emit_eq (e : event) (w : World) :
  emit e w = (Returned tt, with_events w [e]).
Proof. reflexivity. Qed.

Lemma logger_error_eq (m : message) (w : World) :
  logger_error m w = (Returned tt, with_events w [Logged ERROR m]).
Proof. reflexivity. Qed.

Lemma logger_info_eq (m : message) (w : World) :
  logger_info m w = (Returned tt, with_events w [Logged INFO m]).
Proof. reflexivity. Qed.

(** Push the log calls of the goal into [with_events]. *)
Ltac log_steps :=
  unfold bind, ret, raise;
  rewrite ?logger_error_eq, ?logger_info_eq, ?emit_eq;
  cbv beta iota;
  rewrite ?with_events_app.

(* ================================================================== *)
(** ** Strings and the file *)
(* ================================================================== *)

Lemma length_append (s t : string) :
  String.length (s ++ t) = String.length s + String.length t.
Proof. induction s as [|c s IH]; simpl; [reflexivity|now rewrite IH]. Qed.

Lemma append_assoc (s t u : string) : ((s ++ t) ++ u = s ++ (t ++ u))%string.
Proof. induction s as [|c s IH]; simpl; [reflexivity|now rewrite IH]. Qed.

Lemma append_nil_r (s : string) : (s ++ "")%string = s.
Proof. induction s as [|c s IH]; simpl; [reflexivity|now rewrite IH]. Qed.

Lemma take_all (n : nat) (s : string) :
  String.length s <= n -> PyStr.take n s = s.
Proof.
  revert n. induction s as [|c s IH]; intros [|n] H; simpl in *;
    try reflexivity; try lia.
  rewrite IH by lia. reflexivity.
Qed.

Lemma take_append_fit (n : nat) (a b : string) :
  String.length a <= n ->
  PyStr.take n (a ++ b) = (a ++ PyStr.take (n - String.length a) b)%string.
Proof.
  revert n. induction a as [|c a IH]; intros n H; simpl in *.
  - now rewrite Nat.sub_0_r.
  - destruct n as [|n]; [lia|]. simpl. rewrite IH by lia. reflexivity.
Qed.

Lemma take_append_overflow (n : nat) (a b : string) :
  n <= String.length a -> PyStr.take n (a ++ b) = PyStr.take n a.
Proof.
  revert n. induction a as [|c a IH]; intros n H; simpl in *.
  - assert (n = 0) by lia. subst. destruct b; reflexivity.
  - destruct n as [|n]; [reflexivity|]. simpl. rewrite IH by lia. reflexivity.
Qed.

Lemma fs_append_fit (f : FS) (a b : string) :
  String.length a <= free f ->
  fs_append (fs_append f a) b = fs_append f (a ++ b).
Proof.
  intros H. unfold fs_append, text_of. simpl.
  rewrite (take_all (free f) a H), (take_append_fit _ a b H).
  rewrite append_assoc, length_append. f_equal. lia.
Qed.

Lemma fs_append_overflow (f : FS) (a b : string) :
  free f < String.length a -> fs_append f (a ++ b) = fs_append f a.
Proof.
  intros H. unfold fs_append.
  rewrite take_append_overflow by lia. rewrite length_append. f_equal. lia.
Qed.

Lemma f_write_eq (s : string) (w : World) :
  f_write s w
  = (if (String.length s <=? free (fs w))%nat then Returned tt
     else Raised OSError_ENOSPC,
     mkWorld (self w) (fs_append (fs w) s) (trace w ++ [Wrote s])).
Proof.
  unfold f_write, bind, emit, get_fs, set_fs, ret, raise. simpl.
  destruct (String.length s <=? free (fs w))%nat; reflexivity.
Qed.

Lemma fs_append_nothing (f : FS) :
  hosts f <> None -> fs_append f EmptyString = f.
Proof.
  destruct f as [[t|] r wr fr]; intros H; [|exfalso; apply H; reflexivity].
  unfold fs_append, text_of. destruct fr; simpl; rewrite append_nil_r; reflexivity.
Qed.

Lemma fs_append_exists (f : FS) (s : string) : hosts (fs_append f s) <> None.
Proof. discriminate. Qed.

(** Writing lines one after the other writes their text, as far as the
    device takes it, and fails exactly when it does not take all of it. *)
Lemma write_lines_eq (lines : list string) :
  forall w, hosts (fs w) <> None ->
  exists evs,
    write_lines lines w
    = (if (String.length (concat_lines lines) <=? free (fs w))%nat
       then Returned tt else Raised OSError_ENOSPC,
       mkWorld (self w) (fs_append (fs w) (concat_lines lines))
               (trace w ++ evs))
    /\ ((String.length (concat_lines lines) <=? free (fs w))%nat = true ->
        evs = map Wrote lines).
Proof.
  induction lines as [|l rest IH]; intros w Hex; cbn [write_lines concat_lines].
  - exists []. rewrite (fs_append_nothing _ Hex), app_nil_r.
    destruct w; split; reflexivity.
  - unfold bind. rewrite f_write_eq, length_append.
    destruct (String.length l <=? free (fs w))%nat eqn:Hl.
    + apply Nat.leb_le in Hl.
      destruct (IH (mkWorld (self w) (fs_append (fs w) l) (trace w ++ [Wrote l]))
                   (fs_append_exists _ _)) as (evs & Heq & Hevs).
      rewrite Heq. cbn [self fs trace] in *.
      rewrite (fs_append_fit _ _ _ Hl), <- app_assoc.
      assert (Hfree : free (fs_append (fs w) l) = free (fs w) - String.length l)
        by reflexivity.
      rewrite Hfree in *.
      assert (Hsame : (String.length (concat_lines rest)
                         <=? free (fs w) - String.length l)%nat
                      = (String.length l + String.length (concat_lines rest)
                         <=? free (fs w))%nat).
      { destruct (Nat.leb_spec (String.length (concat_lines rest))
                               (free (fs w) - String.length l));
        destruct (Nat.leb_spec (String.length l + String.length (concat_lines rest))
                               (free (fs w))); try reflexivity; lia. }
      rewrite Hsame in *. exists (Wrote l :: evs). split; [reflexivity|].
      intros H. simpl. rewrite (Hevs H). reflexivity.
    + apply Nat.leb_gt in Hl.
      assert (Hno : (String.length l + String.length (concat_lines rest)
                       <=? free (fs w))%nat = false)
        by (apply Nat.leb_gt; lia).
      rewrite Hno, (fs_append_overflow _ _ _ Hl).
      exists [Wrote l]. split; [reflexivity|discriminate].
Qed.

Lemma open_r_eq (w : World) :
  open_r w
  = match hosts (fs w) with
    | None => (Raised FileNotFoundError, w)
    | Some t =>
        if readable (fs w) then (Returned t, with_events w [Opened mode_r])
        else (Raised PermissionError, w)
    end.
Proof.
  unfold open_r, bind, get_fs, emit, ret, raise, with_events.
  destruct (hosts (fs w)); [destruct (readable (fs w))|]; reflexivity.
Qed.

Lemma open_a_eq (w : World) :
  open_a w
  = if writable (fs w)
    then (Returned tt,
          mkWorld (self w) (fs_opened (fs w)) (trace w ++ [Opened mode_a]))
    else (Raised PermissionError, w).
Proof.
  unfold open_a, bind, get_fs, set_fs, emit, raise, fs_opened.
  destruct (writable (fs w)); reflexivity.
Qed.

Lemma three_writes (a b c : string) (k : M unit) (w : World) :
  (f_write a ;; f_write b ;; f_write c ;; k) w
  = (write_lines [a; b; c] ;; k) w.
Proof.
  cbn [write_lines]. unfold bind.
  destruct (f_write a w) as [[[]|e] w1]; [|reflexivity].
  destruct (f_write b w1) as [[[]|e] w2]; [|reflexivity].
  destruct (f_write c w2) as [[[]|e] w3]; reflexivity.
Qed.

Lemma block_text_lines (hosts_content : list string) :
  concat_lines [(START_MARKER ++ nl)%string; PyStr.join nl hosts_content;
                (nl ++ END_MARKER ++ nl)%string]
  = block_text hosts_content.
Proof.
  unfold block_text. cbn [concat_lines]. rewrite append_nil_r. reflexivity.
Qed.

(** [_write_hosts] never raises.  It leaves a file it may not open as it
    is, and otherwise appends as much of the block as the device takes. *)
Lemma _write_hosts_eq (system_hosts hosts_content : list string) (w : World) :
  exists evs,
    _write_hosts system_hosts hosts_content w
    = (Returned tt,
       mkWorld (self w)
               (if writable (fs w)
                then fs_append (fs_opened (fs w)) (block_text hosts_content)
                else fs w)
               (trace w ++ evs))
    /\ (writable (fs w) = false ->
        evs = [Logged ERROR (update_failed PermissionError)])
    /\ (writable (fs w) = true ->
        free (fs w) < String.length (block_text hosts_content) ->
        In (Logged ERROR (update_failed OSError_ENOSPC)) evs)
    /\ (writable (fs w) = true ->
        String.length (block_text hosts_content) <= free (fs w) ->
        evs = [Opened mode_a;
               Wrote (START_MARKER ++ nl)%string;
               Wrote (PyStr.join nl hosts_content);
               Wrote (nl ++ END_MARKER ++ nl)%string;
               Logged INFO hosts_updated]).
Proof.
  unfold _write_hosts, try_except.
  unfold bind at 1. rewrite open_a_eq.
  destruct (writable (fs w)) eqn:Hw.
  2:{ exists [Logged ERROR (update_failed PermissionError)].
      rewrite logger_error_eq. unfold with_events.
      repeat split; try congruence. }
  rewrite three_writes. unfold bind at 1.
  match goal with |- context [write_lines ?ls ?w1] =>
    destruct (write_lines_eq ls w1) as (evs & Heq & Hevs);
      [discriminate|rewrite Heq; clear Heq] end.
  rewrite block_text_lines in *. cbn [self fs trace] in *.
  change (free (fs_opened (fs w))) with (free (fs w)) in *.
  destruct (String.length (block_text hosts_content) <=? free (fs w))%nat eqn:Hfit.
  - apply Nat.leb_le in Hfit. rewrite logger_info_eq. unfold with_events.
    cbn [self fs trace]. rewrite <- !app_assoc. eexists. split; [reflexivity|].
    rewrite (Hevs eq_refl). repeat split; intros; try congruence; try lia.
  - apply Nat.leb_gt in Hfit. rewrite logger_error_eq. unfold with_events.
    cbn [self fs trace]. rewrite <- !app_assoc. eexists. split; [reflexivity|].
    repeat split; intros; try congruence; try lia.
    apply in_or_app. right. apply in_or_app. right. left. reflexivity.
Qed.

(* ================================================================== *)
(** ** The fetching part of the update cycle *)
(* ================================================================== *)

(** Membership in a trace that is an append of pieces. *)
Ltac find_in :=
  solve [ auto
        | simpl; auto
        | apply in_or_app; left; find_in
        | apply in_or_app; right; find_in ].

Lemma addresses_all_addresses (entries : list (option string)) (w : World) :
  addresses entries w =
  (match all_addresses entries with
   | Some ips => Returned ips
   | None => Raised KeyError
   end, w).
Proof.
  induction entries as [|[a|] rest IH]; simpl; try reflexivity.
  unfold bind. rewrite IH. destruct (all_addresses rest); reflexivity.
Qed.

Section Fetching.

Variable net : Net.

Lemma requests_get_eq (url : string) (w : World) :
  requests_get net url w
  = (match net url with
     | Some r => Returned r
     | None => Raised ConnectionError
     end, with_events w [Requested url]).
Proof.
  unfold requests_get, bind, emit, ret, raise, with_events.
  destruct (net url); reflexivity.
Qed.

(** One pass of the domain loop appends the lines of the domain, leaves
    plugin and file alone, raises nothing, and logs what it caught. *)
Lemma lookup_domain_lines (dns_api domain : string)
    (hosts_content error_domains : list string) (w : World) :
  exists errs evs,
    lookup_domain net dns_api domain (hosts_content, error_domains) w
    = (Returned (hosts_content ++ domain_lines net dns_api domain, errs),
       with_events w evs)
    /\ forallb (fun e => negb (is_file_write e)) evs = true
    /\ (forall e, fetch_exception net dns_api domain = Some e ->
                  In (Logged ERROR (cannot_get_ip domain e)) evs).
Proof.
  unfold lookup_domain, domain_lines, resolveDomain, fetch_exception,
    try_except.
  unfold bind at 1. rewrite requests_get_eq.
  destruct (net (dns_url dns_api domain)) as [r|].
  - destruct (status_code r =? 200)%Z.
    + unfold bind, ip_addresses_of.
      destruct (json r) as [|entries].
      * exists (error_domains ++ [domain]). eexists. split; [|split].
        -- rewrite app_nil_r. log_steps. reflexivity.
        -- reflexivity.
        -- intros e [= <-]. simpl. auto.
      * rewrite addresses_all_addresses.
        destruct (all_addresses entries) as [ips|].
        -- exists error_domains. eexists.
           split; [reflexivity|split; [reflexivity|discriminate]].
        -- exists (error_domains ++ [domain]). eexists. split; [|split].
           ++ rewrite app_nil_r. log_steps. reflexivity.
           ++ reflexivity.
           ++ intros e [= <-]. simpl. auto.
    + exists (error_domains ++ [domain]). eexists. rewrite app_nil_r.
      split; [reflexivity|split; [reflexivity|discriminate]].
  - exists (error_domains ++ [domain]). eexists. split; [|split].
    + rewrite app_nil_r. log_steps. reflexivity.
    + reflexivity.
    + intros e [= <-]. simpl. auto.
Qed.

Lemma lookup_domains_lines (dns_api : string) (domains : list string) :
  forall (hosts_content error_domains : list string) (w : World),
  exists errs evs,
    lookup_domains net dns_api domains (hosts_content, error_domains) w
    = (Returned (hosts_content ++ flat_map (domain_lines net dns_api) domains,
                 errs),
       with_events w evs)
    /\ forallb (fun e => negb (is_file_write e)) evs = true
    /\ (forall d e, In d domains -> fetch_exception net dns_api d = Some e ->
                    In (Logged ERROR (cannot_get_ip d e)) evs).
Proof.
  induction domains as [|d rest IH]; intros hc ed w;
    cbn [lookup_domains flat_map].
  - exists ed, []. rewrite app_nil_r, with_events_nil.
    split; [reflexivity|split; [reflexivity|intros ? ? []]].
  - destruct (lookup_domain_lines dns_api d hc ed w)
      as (e1 & evs1 & H1 & F1 & L1).
    unfold bind. rewrite H1.
    destruct (IH (hc ++ domain_lines net dns_api d) e1 (with_events w evs1))
      as (e2 & evs2 & H2 & F2 & L2).
    rewrite H2. exists e2, (evs1 ++ evs2).
    rewrite with_events_app, app_assoc. split; [reflexivity|split].
    + rewrite forallb_app, F1, F2. reflexivity.
    + intros d' e [<-|Hin] He; apply in_or_app; [left|right]; auto.
Qed.

Lemma fetch_hosts_content_block (w : World) :
  exists errs evs,
    fetch_hosts_content net w
    = (Returned (buildBlock net (self w), errs), with_events w evs)
    /\ forallb (fun e => negb (is_file_write e)) evs = true
    /\ (net (_github_host_url (self w)) = None ->
        In (Logged ERROR (cannot_get_github_hosts ConnectionError)) evs)
    /\ (forall d e, In d (_domain_list (self w)) ->
                    fetch_exception net (_dns_api (self w)) d = Some e ->
                    In (Logged ERROR (cannot_get_ip d e)) evs).
Proof.
  unfold fetch_hosts_content, buildBlock, bulk_segment.
  unfold bind at 1. unfold get_self at 1. cbv beta iota.
  unfold bind at 1. unfold try_except. unfold bind at 1.
  rewrite requests_get_eq.
  destruct (net (_github_host_url (self w))) as [r|].
  - unfold ret.
    match goal with |- context [lookup_domains _ _ _ _ ?w1] =>
      destruct (lookup_domains_lines (_dns_api (self w)) (_domain_list (self w))
                  [text r] [] w1) as (errs & evs & H & F & L) end.
    cbn [app] in H |- *. rewrite H. rewrite with_events_app.
    exists errs, ([Requested (_github_host_url (self w))] ++ evs).
    split; [reflexivity|split; [exact F|split; [discriminate|]]].
    intros d e Hin He. right. apply (L d e Hin He).
  - log_steps.
    match goal with |- context [lookup_domains _ _ _ _ ?w1] =>
      destruct (lookup_domains_lines (_dns_api (self w)) (_domain_list (self w))
                  [] [] w1) as (errs & evs & H & F & L) end.
    cbn [app] in H |- *. rewrite H. rewrite with_events_app.
    eexists errs, _. split; [reflexivity|split; [exact F|split]].
    + intros _. simpl. auto.
    + intros d e Hin He. right. right. apply (L d e Hin He).
Qed.

Lemma _read_system_hosts_eq (w : World) :
  exists lines evs,
    _read_system_hosts w = (Returned lines, with_events w evs)
    /\ forallb (fun e => negb (is_file_write e)) evs = true.
Proof.
  unfold _read_system_hosts, try_except, bind. rewrite open_r_eq.
  destruct (hosts (fs w)) as [t|]; [destruct (readable (fs w))|];
    rewrite ?logger_error_eq; unfold ret;
    eexists; eexists; split; reflexivity.
Qed.

(** The update cycle, start to end. *)
Lemma update_hosts_eq (w : World) :
  exists evs,
    update_hosts net w
    = (Returned tt,
       mkWorld (self w) (fs_after_update net w) (trace w ++ evs))
    /\ (net (_github_host_url (self w)) = None ->
        In (Logged ERROR (cannot_get_github_hosts ConnectionError)) evs)
    /\ (forall d e, In d (_domain_list (self w)) ->
                    fetch_exception net (_dns_api (self w)) d = Some e ->
                    In (Logged ERROR (cannot_get_ip d e)) evs)
    /\ (buildBlock net (self w) <> [] -> writable (fs w) = false ->
        In (Logged ERROR (update_failed PermissionError)) evs)
    /\ (buildBlock net (self w) <> [] -> writable (fs w) = true ->
        free (fs w) < String.length (block_text (buildBlock net (self w))) ->
        In (Logged ERROR (update_failed OSError_ENOSPC)) evs)
    /\ (buildBlock net (self w) = [] ->
        forallb (fun e => negb (is_file_write e)) evs = true
        /\ In (Logged INFO nothing_to_update) evs).
Proof.
  unfold update_hosts, fs_after_update.
  destruct (_read_system_hosts_eq w) as (lines & evs0 & H0 & F0).
  unfold bind at 1. rewrite H0.
  destruct (fetch_hosts_content_block (with_events w evs0))
    as (errs & evs1 & H1 & F1 & L1 & L2).
  unfold bind at 1. rewrite H1. rewrite with_events_app.
  cbn [fst self with_events] in *.
  destruct (buildBlock net (self w)) as [|l hc] eqn:Hblock.
  - rewrite logger_info_eq, with_events_app.
    eexists. split; [reflexivity|].
    repeat split; try congruence.
    + intros H. specialize (L1 H). find_in.
    + intros d e Hin He. specialize (L2 d e Hin He). find_in.
    + rewrite !forallb_app, F0, F1. reflexivity.
    + find_in.
  - destruct (_write_hosts_eq lines (l :: hc) (with_events w (evs0 ++ evs1)))
      as (evs2 & H2 & W1 & W2 & W3).
    rewrite H2. cbn [self fs trace with_events] in *.
    rewrite <- app_assoc.
    eexists. split; [reflexivity|].
    repeat split; try congruence.
    + intros H. specialize (L1 H). find_in.
    + intros d e Hin He. specialize (L2 d e Hin He). find_in.
    + intros _ Hw. rewrite (W1 Hw). find_in.
    + intros _ Hw Hfull. specialize (W2 Hw Hfull). find_in.
Qed.

End Fetching.

(* ================================================================== *)
(** ** The strip, on the file *)
(* ================================================================== *)

Lemma concat_keepends (s : string) : concat_lines (PyStr.keepends s) = s.
Proof.
  induction s as [|c s IH]; [reflexivity|].
  cbn [PyStr.keepends].
  destruct (Ascii.eqb_spec c PyStr.LF) as [->|Hc].
  - cbn [concat_lines]. rewrite IH. reflexivity.
  - destruct (PyStr.keepends s) as [|l ls]; cbn [concat_lines] in *.
    + rewrite <- IH. reflexivity.
    + rewrite <- IH. reflexivity.
Qed.

Lemma universal_newlines_shorter (n : nat) :
  forall s, String.length s <= n ->
            String.length (PyStr.universal_newlines s) <= String.length s.
Proof.
  induction n as [|n IH]; intros s Hn.
  - destruct s; simpl in *; lia.
  - destruct s as [|c s]; [simpl; lia|].
    cbn [PyStr.universal_newlines].
    destruct (Ascii.eqb c PyStr.CR).
    + destruct s as [|c' s']; [simpl; lia|].
      destruct (Ascii.eqb c' PyStr.LF).
      * assert (H := IH s'). simpl in *. specialize (H ltac:(lia)). lia.
      * assert (H := IH (String c' s')). cbn [String.length] in *.
        specialize (H ltac:(lia)). lia.
    + assert (H := IH s). cbn [String.length] in *.
      specialize (H ltac:(lia)). lia.
Qed.

Lemma kept_lines_shorter (lines : list string) :
  forall write,
    String.length (concat_lines (kept_lines lines write))
    <= String.length (concat_lines lines).
Proof.
  induction lines as [|l rest IH]; intros write; cbn [kept_lines concat_lines].
  - lia.
  - rewrite length_append.
    destruct (is_start l); [specialize (IH false); lia|].
    destruct (is_end l); [specialize (IH true); lia|].
    destruct write; [|specialize (IH false); lia].
    cbn [concat_lines]. rewrite length_append. specialize (IH true). lia.
Qed.

Lemma kept_text_fits (t : string) :
  String.length (concat_lines (kept_lines (PyStr.readlines t) true))
  <= String.length t.
Proof.
  unfold PyStr.readlines.
  pose proof (kept_lines_shorter (PyStr.keepends (PyStr.universal_newlines t)) true).
  rewrite concat_keepends in H.
  pose proof (universal_newlines_shorter _ t (le_n _)). lia.
Qed.

Lemma open_w_eq (w : World) :
  open_w w
  = if writable (fs w)
    then (Returned tt,
          mkWorld (self w)
                  (mkFS (Some EmptyString) (readable (fs w)) (writable (fs w))
                        (free (fs w) + String.length (text_of (fs w))))
                  (trace w ++ [Opened mode_w]))
    else (Raised PermissionError, w).
Proof.
  unfold open_w, bind, get_fs, set_fs, emit, raise.
  destruct (writable (fs w)); reflexivity.
Qed.

(** [_clear_system_hosts] never raises and leaves the plugin alone. *)
Lemma _clear_system_hosts_eq (w : World) :
  exists evs,
    _clear_system_hosts w
    = (Returned tt, mkWorld (self w) (fs_after_clear (fs w)) (trace w ++ evs)).
Proof.
  unfold _clear_system_hosts, fs_after_clear, try_except.
  unfold bind at 1. rewrite open_r_eq.
  destruct (hosts (fs w)) as [t|] eqn:Ht.
  2:{ rewrite logger_error_eq. eexists. reflexivity. }
  destruct (readable (fs w)) eqn:Hr.
  2:{ rewrite logger_error_eq. eexists. reflexivity. }
  unfold bind at 1. rewrite open_w_eq. cbn [self fs trace with_events].
  destruct (writable (fs w)) eqn:Hwr.
  2:{ rewrite logger_error_eq. unfold with_events. cbn [self fs trace andb].
      rewrite <- app_assoc. eexists. reflexivity. }
  unfold bind at 1. rewrite clear_loop_kept_lines.
  match goal with |- context [write_lines ?ls ?w1] =>
    destruct (write_lines_eq ls w1) as (evs & Heq & _);
      [discriminate|rewrite Heq; clear Heq] end.
  cbn [self fs trace free].
  assert (Htext : text_of (fs w) = t) by (unfold text_of; rewrite Ht; reflexivity).
  rewrite Htext.
  pose proof (kept_text_fits t) as Hfit.
  set (kept := concat_lines (kept_lines (PyStr.readlines t) true)) in *.
  assert (Hleb : (String.length kept <=? free (fs w) + String.length t)%nat = true)
    by (apply Nat.leb_le; lia).
  rewrite Hleb, logger_info_eq. unfold with_events, fs_append, text_of.
  cbn [self fs trace hosts readable writable free andb].
  rewrite take_all by lia. rewrite <- !app_assoc, ?Hr, ?Hwr.
  eexists. reflexivity.
Qed.

(* ================================================================== *)
(** ** Splitting the configured domain text *)
(* ================================================================== *)

Lemma no_space_snoc (cur : string) (c : ascii) :
  no_space cur = true -> PyStr.isspace c = false ->
  no_space (cur ++ String c EmptyString) = true.
Proof.
  induction cur as [|c' cur IH]; simpl; intros H Hc.
  - rewrite Hc. reflexivity.
  - apply andb_true_iff in H. destruct H as [-> H]. simpl. auto.
Qed.

Lemma split_from_tokens (s : string) :
  forall cur, no_space cur = true ->
  Forall (fun d => d <> EmptyString /\ no_space d = true) (PyStr.split_from cur s).
Proof.
  induction s as [|c s IH]; intros cur Hcur; cbn [PyStr.split_from].
  - destruct cur; constructor; [split; [discriminate|exact Hcur]|constructor].
  - destruct (PyStr.isspace c) eqn:Hc.
    + destruct cur as [|c' cur'].
      * apply IH. reflexivity.
      * constructor; [split; [discriminate|exact Hcur]|]. apply IH. reflexivity.
    + apply IH. apply no_space_snoc; assumption.
Qed.

Lemma lstrip_no_space (d : string) : no_space d = true -> PyStr.lstrip d = d.
Proof.
  destruct d as [|c d]; simpl; intros H; [reflexivity|].
  apply andb_true_iff in H. destruct H as [H _].
  apply negb_true_iff in H. rewrite H. reflexivity.
Qed.

Lemma rstrip_no_space (d : string) : no_space d = true -> PyStr.rstrip d = d.
Proof.
  induction d as [|c d IH]; simpl; intros H; [reflexivity|].
  apply andb_true_iff in H. destruct H as [Hc Hd].
  apply negb_true_iff in Hc. rewrite (IH Hd), Hc.
  destruct d; reflexivity.
Qed.

Lemma strip_no_space (d : string) : no_space d = true -> PyStr.strip d = d.
Proof.
  intros H. unfold PyStr.strip. rewrite (lstrip_no_space d H).
  apply rstrip_no_space, H.
Qed.

Lemma truthy_false (s : string) : PyStr.truthy s = false <-> s = EmptyString.
Proof. destruct s; simpl; split; congruence. Qed.

(* ================================================================== *)
(** ** What the lifecycle methods leave alone *)
(* ================================================================== *)

Lemma setup_scheduler_domain_list (w : World) :
  _domain_list (self (snd (setup_scheduler w))) = _domain_list (self w).
Proof.
  destruct w as [[en dl gh api [[r js]|] si] f tr];
    unfold setup_scheduler, bind, get_self; cbn;
    destruct (interval_of si) as [t|]; cbn; try reflexivity;
    destruct r; reflexivity.
Qed.

Lemma init_plugin_domains (net : Net) (config : Config) (w : World) :
  _domain_list (self (snd (init_plugin net (Some config) w)))
  = if PyStr.truthy (get (domain_list config) EmptyString)
    then PyStr.split (get (domain_list config) EmptyString)
    else _domain_list (self w).
Proof.
  unfold init_plugin. destruct (has_keys config) eqn:Hkeys.
  2:{ unfold has_keys in Hkeys.
      destruct (enabled config); [discriminate|].
      destruct (domain_list config); [discriminate|]. reflexivity. }
  unfold bind at 1. unfold get_self at 1. cbv beta iota.
  unfold bind at 1. unfold set_self at 1. cbv beta iota.
  destruct (get (enabled config) false).
  - unfold bind.
    match goal with |- context [update_hosts net ?w1] =>
      destruct (update_hosts_eq net w1) as (evs & Heq & _); rewrite Heq end.
    rewrite setup_scheduler_domain_list. reflexivity.
  - match goal with |- context [_clear_system_hosts ?w1] =>
      destruct (_clear_system_hosts_eq w1) as (evs & Heq); rewrite Heq end.
    reflexivity.
Qed.

(* ================================================================== *)
(** ** The update cycle run twice *)
(* ================================================================== *)

Lemma fs_after_update_appends (net : Net) (w : World) :
  writable (fs w) = true ->
  buildBlock net (self w) <> [] ->
  String.length (block_text (buildBlock net (self w))) <= free (fs w) ->
  fs_after_update net w
  = mkFS (Some (text_of (fs w) ++ block_text (buildBlock net (self w)))%string)
         (readable (fs w)) true
         (free (fs w) - String.length (block_text (buildBlock net (self w)))).
Proof.
  intros Hw Hblock Hfit. unfold fs_after_update.
  destruct (buildBlock net (self w)) as [|l hc]; [congruence|].
  rewrite Hw. unfold fs_append, fs_opened. cbn [text_of hosts readable writable free].
  rewrite take_all by exact Hfit. rewrite Hw. reflexivity.
Qed.

(** With room on the device, every further cycle appends the block again. *)
Lemma update_hosts_appends_again (net : Net) (w : World) :
  writable (fs w) = true ->
  buildBlock net (self w) <> [] ->
  2 * String.length (block_text (buildBlock net (self w))) <= free (fs w) ->
  let block := block_text (buildBlock net (self w)) in
  let w1 := snd (update_hosts net w) in
  let w2 := snd (update_hosts net w1) in
  hosts (fs w1) = Some (text_of (fs w) ++ block)%string
  /\ hosts (fs w2) = Some ((text_of (fs w) ++ block) ++ block)%string.
Proof.
  intros Hw Hblock Hfit block w1 w2. subst w1 w2 block.
  destruct (update_hosts_eq net w) as (evs1 & H1 & _). rewrite H1.
  cbn [snd].
  match goal with |- context [update_hosts net ?w1] =>
    destruct (update_hosts_eq net w1) as (evs2 & H2 & _); rewrite H2 end.
  cbn [snd fs self].
  rewrite (fs_after_update_appends net w Hw Hblock) by lia.
  split; [reflexivity|].
  rewrite fs_after_update_appends; cbn [self fs writable free text_of hosts];
    try reflexivity; try assumption.
  lia.
Qed.

(** C1.  The claim says that two update cycles in a row, with the same fetch
    results, leave the same owned block as one cycle, because the cycle
    strips the old block before it appends the new one.  [update_hosts]
    does not strip: [_write_hosts] opens the file for appending and never
    looks at [system_hosts].  In the scenario of the spec the second cycle
    leaves the block in the file twice. *)
Theorem update_hosts_twice_leaves_two_blocks :
  let w1 := snd (update_hosts scenario_net scenario_world) in
  let w2 := snd (update_hosts scenario_net w1) in
  hosts (fs w1) = Some (localhost_line ++ block_text scenario_block)%string
  /\ hosts (fs w2)
     = Some (localhost_line ++ block_text scenario_block
               ++ block_text scenario_block)%string
  /\ start_marker_count (fs w1) = 1
  /\ start_marker_count (fs w2) = 2
  /\ hosts (fs w2) <> hosts (fs w1).
Proof.
  vm_compute. repeat split; try reflexivity. discriminate.
Qed.

(* ================================================================== *)
(** ** A second block *)
(* ================================================================== *)

(** C3.  The claim says that a file with at most one owned block still has at
    most one after any sequence of operations.  The update cycle appends
    without stripping, so the first firing of the timer after [init_plugin]
    adds a second block behind the first. *)
Theorem timer_firing_adds_second_block :
  let w0 := fresh_world localhost_line 1000 in
  let r := (init_plugin scenario_net (Some scenario_config) ;;
            fire scenario_net) w0 in
  start_marker_count (fs w0) = 0
  /\ fst r = Returned tt
  /\ start_marker_count (fs (snd r)) = 2
  /\ hosts (fs (snd r))
     = Some (localhost_line ++ block_text scenario_block
               ++ block_text scenario_block)%string.
Proof.
  vm_compute. repeat split; reflexivity.
Qed.

(* ================================================================== *)
(** ** The strip operation *)
(* ================================================================== *)




(** The disable scenario of the spec: foreign line [A], the owned block,
    foreign line [C]; after [stop_service] the file is [A] then [C]. *)
Example disable_scenario :
  let text := (("A" ++ nl) ++ block_text scenario_block ++ ("C" ++ nl))%string in
  hosts (fs (snd (stop_service (fresh_world text 0))))
  = Some (("A" ++ nl) ++ ("C" ++ nl))%string.
Proof. vm_compute. reflexivity. Qed.

(** A start marker without an end marker: the lines before it survive. *)
Example unterminated_block :
  let text := (("A" ++ nl) ++ (START_MARKER ++ nl) ++ ("1.2.3.4" ++ tab ++ "b"))%string in
  _clear_system_hosts (fresh_world text 0)
  = (Returned tt,
     mkWorld new_BetterHosts
             (mkFS (Some ("A" ++ nl)%string) true true
                   (String.length text - 2))
             [Opened mode_r; Opened mode_w; Wrote ("A" ++ nl)%string;
              Logged INFO hosts_cleared]).
Proof. vm_compute. reflexivity. Qed.

(* ================================================================== *)
(** ** The block the update cycle builds *)
(* ================================================================== *)

Lemma flat_map_without (f : string -> list string) (d : string)
    (domains : list string) :
  f d = [] -> flat_map f (without d domains) = flat_map f domains.
Proof.
  intros Hd. induction domains as [|x rest IH]; [reflexivity|].
  unfold without in *. cbn [filter flat_map].
  destruct (String.eqb_spec x d) as [->|Hne]; cbn [negb flat_map].
  - rewrite Hd, IH. reflexivity.
  - rewrite IH. reflexivity.
Qed.

(** The block that [update_hosts] builds is the text of the bulk response,
    when its request did not raise, followed by the lines of the configured
    domains in the order of the domain list, one line [address<TAB>domain]
    per address in the order of the answer.  A domain whose lookup failed or
    gave no address contributes no line: the block is the one built without
    that domain.  With room on a writable file, the block goes between the
    two markers behind the previous content. *)
Theorem update_hosts_block_content (net : Net) (w : World) :
  (exists errs w',
     fetch_hosts_content net w = (Returned (buildBlock net (self w), errs), w'))
  /\ buildBlock net (self w)
     = match net (_github_host_url (self w)) with
       | Some r => [text r]
       | None => []
       end
       ++ flat_map
            (fun domain =>
               match resolveDomain net (_dns_api (self w)) domain with
               | Some ips => map (fun ip => (ip ++ tab ++ domain)%string) ips
               | None => []
               end)
            (_domain_list (self w))
  /\ (writable (fs w) = true -> buildBlock net (self w) <> [] ->
      String.length (block_text (buildBlock net (self w))) <= free (fs w) ->
      hosts (fs (snd (update_hosts net w)))
      = Some (text_of (fs w) ++ (START_MARKER ++ nl)
                ++ PyStr.join nl (buildBlock net (self w))
                ++ (nl ++ END_MARKER ++ nl))%string)
  /\ (forall d,
        resolveDomain net (_dns_api (self w)) d = None
        \/ resolveDomain net (_dns_api (self w)) d = Some [] ->
        domain_lines net (_dns_api (self w)) d = []
        /\ buildBlock net (with_domain_list (self w)
                             (without d (_domain_list (self w))))
           = buildBlock net (self w)).
Proof.
  split.
  { destruct (fetch_hosts_content_block net w) as (errs & evs & H & _).
    eauto. }
  split; [reflexivity|].
  split.
  { intros Hw Hblock Hfit.
    destruct (update_hosts_eq net w) as (evs & H & _). rewrite H.
    cbn [snd fs]. rewrite (fs_after_update_appends net w Hw Hblock Hfit).
    reflexivity. }
  intros d Hd.
  assert (Hlines : domain_lines net (_dns_api (self w)) d = []).
  { unfold domain_lines. destruct Hd as [-> | ->]; reflexivity. }
  split; [exact Hlines|].
  unfold buildBlock, with_domain_list.
  cbn [_github_host_url _dns_api _domain_list].
  rewrite (flat_map_without _ d _ Hlines). reflexivity.
Qed.

Lemma update_hosts_block_content_witness :
  domain_lines failing_lookup_net "https://networkcalc.com/api/dns/lookup"
               "x.example.com" = []
  /\ buildBlock failing_lookup_net
                (with_domain_list scenario_plugin
                                  (without "x.example.com" ["x.example.com"%string]))
     = buildBlock failing_lookup_net scenario_plugin.
Proof.
  destruct (update_hosts_block_content failing_lookup_net scenario_world)
    as (_ & _ & _ & H).
  apply (H "x.example.com"%string). left. reflexivity.
Defined.

(** The two end-to-end scenarios of the spec. *)
Example scenario_both_sources :
  fst (fetch_hosts_content scenario_net scenario_world)
  = Returned (scenario_block, [])
  /\ hosts (fs (snd (update_hosts scenario_net scenario_world)))
     = Some (localhost_line ++ block_text scenario_block)%string.
Proof. vm_compute. split; reflexivity. Qed.

Example scenario_failed_lookup :
  fst (fetch_hosts_content failing_lookup_net scenario_world)
  = Returned ([("1.2.3.4" ++ tab ++ "foo.bar")%string], ["x.example.com"%string]).
Proof. vm_compute. reflexivity. Qed.

(* ================================================================== *)
(** ** Nothing fetched, nothing written *)
(* ================================================================== *)

Lemma buildBlock_nothing (net : Net) (s : BetterHosts) :
  net (_github_host_url s) = None ->
  (forall d, In d (_domain_list s) ->
             resolveDomain net (_dns_api s) d = None
             \/ resolveDomain net (_dns_api s) d = Some []) ->
  buildBlock net s = [].
Proof.
  intros Hbulk Hdomains. unfold buildBlock, bulk_segment. rewrite Hbulk.
  cbn [app]. induction (_domain_list s) as [|d rest IH]; [reflexivity|].
  cbn [flat_map]. rewrite IH by (intros; apply Hdomains; right; assumption).
  unfold domain_lines.
  destruct (Hdomains d (or_introl eq_refl)) as [-> | ->]; reflexivity.
Qed.

(** When the bulk request raises and every configured domain fails to
    resolve or resolves to no address, [update_hosts] returns with the file
    exactly as it was: it opens nothing for writing and writes nothing, and
    logs that there is nothing to update. *)
Theorem update_hosts_nothing_fetched (net : Net) (w : World)
    (Hbulk : net (_github_host_url (self w)) = None)
    (Hdomains : forall d, In d (_domain_list (self w)) ->
                  resolveDomain net (_dns_api (self w)) d = None
                  \/ resolveDomain net (_dns_api (self w)) d = Some []) :
  exists evs,
    update_hosts net w
    = (Returned tt, mkWorld (self w) (fs w) (trace w ++ evs))
    /\ forallb (fun e => negb (is_file_write e)) evs = true
    /\ In (Logged INFO nothing_to_update) evs.
Proof.
  pose proof (buildBlock_nothing net (self w) Hbulk Hdomains) as Hnil.
  destruct (update_hosts_eq net w) as (evs & H & _ & _ & _ & _ & Hquiet).
  destruct (Hquiet Hnil) as (Hro & Hlog).
  exists evs. split; [|split; assumption].
  rewrite H. unfold fs_after_update. rewrite Hnil. reflexivity.
Qed.

Lemma update_hosts_nothing_fetched_witness :
  exists evs,
    update_hosts offline_net scenario_world
    = (Returned tt,
       mkWorld (self scenario_world) (fs scenario_world)
               (trace scenario_world ++ evs))
    /\ forallb (fun e => negb (is_file_write e)) evs = true
    /\ In (Logged INFO nothing_to_update) evs.
Proof.
  apply (update_hosts_nothing_fetched offline_net scenario_world).
  - reflexivity.
  - intros d _. left. reflexivity.
Defined.

(* ================================================================== *)
(** ** The scheduler and the lifecycle *)
(* ================================================================== *)

(** [setup_scheduler] on an existing scheduler adds its job behind the jobs
    already there; on a running scheduler it then raises. *)
Lemma setup_scheduler_keeps_jobs (w : World) (sch : BackgroundScheduler)
    (t : IntervalTrigger) :
  _scheduler (self w) = Some sch ->
  interval_of (_schedule_interval (self w)) = Some t ->
  exists sch',
    _scheduler (self (snd (setup_scheduler w))) = Some sch'
    /\ jobs sch' = jobs sch ++ [mkJob self_update_hosts t]
    /\ (running sch = true ->
        fst (setup_scheduler w) = Raised SchedulerAlreadyRunningError
        /\ running sch' = true).
Proof.
  destruct w as [[en dl gh api sc si] f tr]. cbn [self _scheduler _schedule_interval].
  intros -> Ht. unfold setup_scheduler, bind, get_self. cbn. rewrite Ht.
  destruct sch as [[|] js]; cbn; eexists; repeat split; try reflexivity;
    discriminate.
Qed.

(** [stop_service] on a scheduler that is not running raises before it
    reaches the strip. *)
Lemma stop_service_on_stopped_scheduler (w : World) (sch : BackgroundScheduler) :
  _scheduler (self w) = Some sch -> running sch = false ->
  stop_service w = (Raised SchedulerNotRunningError, w).
Proof.
  destruct w as [[en dl gh api sc si] f tr]. cbn [self _scheduler].
  intros -> Hr. unfold stop_service, bind, get_self, shutdown. cbn.
  rewrite Hr. reflexivity.
Qed.

(** [init_plugin] with [enabled] false does not touch the scheduler. *)
Lemma init_plugin_disabled_scheduler (net : Net) (config : Config) (w : World) :
  get (enabled config) false = false ->
  _scheduler (self (snd (init_plugin net (Some config) w)))
  = _scheduler (self w).
Proof.
  intros Hoff. unfold init_plugin.
  destruct (has_keys config); [|reflexivity].
  unfold bind at 1. unfold get_self at 1. cbv beta iota.
  unfold bind at 1. unfold set_self at 1. cbv beta iota. rewrite Hoff.
  match goal with |- context [_clear_system_hosts ?w1] =>
    destruct (_clear_system_hosts_eq w1) as (evs & Heq); rewrite Heq end.
  reflexivity.
Qed.

(** C7.  The claim says that arming the scheduler while it is armed disarms
    the previous timer first, so that at most one timer exists.
    [setup_scheduler] has no call that could disarm: on the second
    [init_plugin] it adds the new job next to the old one on the running
    scheduler, and [start] then raises.  Both timers are armed. *)
Theorem rearming_keeps_the_old_timer :
  let w0 := fresh_world localhost_line 1000 in
  let r1 := init_plugin scenario_net (Some scenario_config) w0 in
  let r2 := init_plugin scenario_net (Some daily_config) (snd r1) in
  fst r1 = Returned tt
  /\ armed_timers (_scheduler (self (snd r1)))
     = [mkJob self_update_hosts (mkIntervalTrigger 0 0 1)]
  /\ fst r2 = Raised SchedulerAlreadyRunningError
  /\ armed_timers (_scheduler (self (snd r2)))
     = [mkJob self_update_hosts (mkIntervalTrigger 0 0 1);
        mkJob self_update_hosts (mkIntervalTrigger 0 1 0)]
  /\ existsb (fun e => match e with ShutDown => true | _ => false end)
             (trace (snd r2)) = false.
Proof.
  vm_compute. repeat split; reflexivity.
Qed.

(** C8.  The claim says that [stop_service] twice in a row produces no
    error.  After the first call the scheduler object is still there, now
    stopped; the second call shuts it down again, which raises, and the
    exception leaves [stop_service].  The file is the same after both
    calls. *)
Theorem stop_service_twice_raises :
  let w0 := fresh_world localhost_line 1000 in
  let w1 := snd (init_plugin scenario_net (Some scenario_config) w0) in
  let r2 := stop_service w1 in
  let r3 := stop_service (snd r2) in
  fst r2 = Returned tt
  /\ _scheduler (self (snd r2)) = Some (mkScheduler false [])
  /\ fst r3 = Raised SchedulerNotRunningError
  /\ hosts (fs (snd r3)) = hosts (fs (snd r2))
  /\ hosts (fs (snd r2)) = Some localhost_line.
Proof.
  vm_compute. repeat split; reflexivity.
Qed.

(** C9.  The claim says that every disable path first disarms the scheduler
    and then strips the block.  [init_plugin] with [enabled] false strips the
    block and leaves the scheduler running: the timer armed by an earlier
    [init_plugin] still fires and writes the block back.  And [stop_service]
    on a scheduler that was created and never started (an interval that is
    none of the three) raises in [shutdown] before it reaches the strip. *)
Theorem disabling_leaves_the_timer_armed :
  let w0 := fresh_world localhost_line 1000 in
  let w1 := snd (init_plugin scenario_net (Some scenario_config) w0) in
  let r2 := init_plugin scenario_net (Some disabled_config) w1 in
  let r3 := fire scenario_net (snd r2) in
  let w1' := snd (init_plugin scenario_net (Some odd_interval_config) w0) in
  let r2' := stop_service w1' in
  fst r2 = Returned tt
  /\ hosts (fs (snd r2)) = Some localhost_line
  /\ armed_timers (_scheduler (self (snd r2)))
     = [mkJob self_update_hosts (mkIntervalTrigger 0 0 1)]
  /\ existsb (fun e => match e with ShutDown => true | _ => false end)
             (trace (snd r2)) = false
  /\ hosts (fs (snd r3)) = Some (localhost_line ++ block_text scenario_block)%string
  /\ fst r2' = Raised SchedulerNotRunningError
  /\ hosts (fs (snd r2')) = Some (localhost_line ++ block_text scenario_block)%string.
Proof.
  vm_compute. repeat split; reflexivity.
Qed.

(* ================================================================== *)
(** ** The configured domain list *)
(* ================================================================== *)

(** C10, amended.  [init_plugin] with a configuration whose [domain_list]
    text is empty or absent (or with no configuration at all) leaves the
    domain list as it is: it is the built-in default when the list was the
    built-in default before, and otherwise the list configured earlier.
    With a non-empty text the list becomes the whitespace-separated words of
    the text: each one is non-empty, holds no whitespace, and is its own
    [strip()]. *)
Theorem init_plugin_domain_list (net : Net) (config : Config) (w : World) :
  let custom_domains := get (domain_list config) EmptyString in
  let domains' := _domain_list (self (snd (init_plugin net (Some config) w))) in
  (custom_domains = EmptyString -> domains' = _domain_list (self w))
  /\ (custom_domains = EmptyString ->
      _domain_list (self w) = default_domain_list ->
      domains' = ["api.themoviedb.org"%string; "image.tmdb.org"%string])
  /\ (custom_domains <> EmptyString ->
      domains' = PyStr.split custom_domains
      /\ Forall (fun d => d <> EmptyString /\ no_space d = true
                          /\ PyStr.strip d = d) domains')
  /\ init_plugin net None w = (Returned tt, w).
Proof.
  intros custom_domains domains'. subst domains'.
  rewrite (init_plugin_domains net config w). fold custom_domains.
  split; [|split; [|split]].
  - intros ->. reflexivity.
  - intros -> Hdefault. exact Hdefault.
  - intros Hne.
    destruct (PyStr.truthy custom_domains) eqn:Ht;
      [|apply truthy_false in Ht; contradiction].
    split; [reflexivity|].
    pose proof (split_from_tokens custom_domains EmptyString eq_refl) as Htok.
    unfold PyStr.split. eapply Forall_impl; [|exact Htok].
    intros d [Hd Hs]. repeat split; try assumption. apply strip_no_space, Hs.
  - reflexivity.
Qed.

Lemma init_plugin_domain_list_witness :
  _domain_list
    (self (snd (init_plugin offline_net
                  (Some (mkConfig (Some false)
                                  (Some ("  a.com " ++ nl ++ "b.org" ++ nl)%string)
                                  None))
                  (fresh_world localhost_line 0))))
  = ["a.com"%string; "b.org"%string]
  /\ _domain_list
       (self (snd (init_plugin offline_net (Some no_domains_config)
                     (fresh_world localhost_line 0))))
     = ["api.themoviedb.org"%string; "image.tmdb.org"%string].
Proof.
  split.
  - destruct (init_plugin_domain_list offline_net
                (mkConfig (Some false)
                          (Some ("  a.com " ++ nl ++ "b.org" ++ nl)%string) None)
                (fresh_world localhost_line 0)) as (_ & _ & H & _).
    destruct (H ltac:(discriminate)) as (Heq & _). exact Heq.
  - destruct (init_plugin_domain_list offline_net no_domains_config
                (fresh_world localhost_line 0)) as (_ & H & _).
    apply H; reflexivity.
Defined.

(* ================================================================== *)
(** ** The traces in closed form *)
(* ================================================================== *)

Lemma write_lines_exact (lines : list string) :
  forall w, hosts (fs w) <> None ->
    write_lines lines w
    = (if (String.length (concat_lines lines) <=? free (fs w))%nat
       then Returned tt else Raised OSError_ENOSPC,
       mkWorld (self w) (fs_append (fs w) (concat_lines lines))
               (trace w ++ wrote_events (free (fs w)) lines)).
Proof.
  induction lines as [|l rest IH]; intros w Hex;
    cbn [write_lines concat_lines wrote_events].
  - rewrite (fs_append_nothing _ Hex), app_nil_r. destruct w; reflexivity.
  - unfold bind. rewrite f_write_eq, length_append.
    destruct (String.length l <=? free (fs w))%nat eqn:Hl.
    + apply Nat.leb_le in Hl.
      rewrite IH by apply fs_append_exists. cbn [self fs trace].
      rewrite (fs_append_fit _ _ _ Hl), <- app_assoc.
      change (free (fs_append (fs w) l)) with (free (fs w) - String.length l).
      replace (String.length (concat_lines rest)
                 <=? free (fs w) - String.length l)%nat
        with (String.length l + String.length (concat_lines rest)
                <=? free (fs w))%nat; [reflexivity|].
      destruct (Nat.leb_spec (String.length (concat_lines rest))
                             (free (fs w) - String.length l));
        destruct (Nat.leb_spec (String.length l + String.length (concat_lines rest))
                               (free (fs w))); try reflexivity; lia.
    + apply Nat.leb_gt in Hl.
      replace (String.length l + String.length (concat_lines rest)
                 <=? free (fs w))%nat with false
        by (symmetry; apply Nat.leb_gt; lia).
      rewrite (fs_append_overflow _ _ _ Hl). reflexivity.
Qed.

Lemma _read_system_hosts_exact (w : World) :
  exists lines,
    _read_system_hosts w = (Returned lines, with_events w (read_events (fs w))).
Proof.
  unfold _read_system_hosts, read_events, try_except, bind. rewrite open_r_eq.
  destruct (hosts (fs w)) as [t|]; [destruct (readable (fs w))|];
    rewrite ?logger_error_eq; unfold ret; eexists; reflexivity.
Qed.

Lemma _write_hosts_exact (system_hosts hosts_content : list string) (w : World) :
  _write_hosts system_hosts hosts_content w
  = (Returned tt,
     mkWorld (self w)
             (if writable (fs w)
              then fs_append (fs_opened (fs w)) (block_text hosts_content)
              else fs w)
             (trace w ++ write_hosts_events (fs w) hosts_content)).
Proof.
  unfold _write_hosts, write_hosts_events, try_except.
  unfold bind at 1. rewrite open_a_eq.
  destruct (writable (fs w)) eqn:Hw.
  2:{ rewrite logger_error_eq. reflexivity. }
  rewrite three_writes. unfold bind at 1.
  rewrite write_lines_exact by discriminate.
  rewrite block_text_lines. cbn [self fs trace].
  change (free (fs_opened (fs w))) with (free (fs w)).
  destruct (String.length (block_text hosts_content) <=? free (fs w))%nat;
    rewrite ?logger_info_eq, ?logger_error_eq; unfold with_events;
    cbn [self fs trace]; rewrite <- !app_assoc; reflexivity.
Qed.

Lemma _clear_system_hosts_exact (w : World) :
  _clear_system_hosts w
  = (Returned tt,
     mkWorld (self w) (fs_after_clear (fs w)) (trace w ++ clear_events (fs w))).
Proof.
  destruct (_clear_system_hosts_eq w) as (evs & Heq).
  rewrite Heq. f_equal. f_equal. apply app_inv_head with (l := trace w).
  assert (Htrace : trace (snd (_clear_system_hosts w)) = trace w ++ evs)
    by (rewrite Heq; reflexivity).
  rewrite <- Htrace. clear Heq Htrace evs.
  unfold _clear_system_hosts, clear_events, try_except.
  unfold bind at 1. rewrite open_r_eq.
  destruct (hosts (fs w)) as [t|] eqn:Ht.
  2:{ rewrite logger_error_eq. reflexivity. }
  destruct (readable (fs w)) eqn:Hr.
  2:{ rewrite logger_error_eq. reflexivity. }
  unfold bind at 1. rewrite open_w_eq. cbn [self fs trace with_events].
  destruct (writable (fs w)) eqn:Hwr.
  2:{ rewrite logger_error_eq. unfold with_events. cbn [snd self fs trace].
      rewrite <- app_assoc. reflexivity. }
  unfold bind at 1. rewrite clear_loop_kept_lines.
  match goal with |- context [write_lines ?ls ?w1] =>
    destruct (write_lines_eq ls w1) as (evs & Heq & Hevs);
      [discriminate|rewrite Heq; clear Heq] end.
  cbn [self fs trace free] in *.
  assert (Htext : text_of (fs w) = t) by (unfold text_of; rewrite Ht; reflexivity).
  rewrite Htext in *.
  pose proof (kept_text_fits t) as Hfit.
  assert (Hleb : (String.length (concat_lines (kept_lines (PyStr.readlines t) true))
                    <=? free (fs w) + String.length t)%nat = true)
    by (apply Nat.leb_le; lia).
  rewrite Hleb in *. rewrite (Hevs eq_refl), logger_info_eq.
  unfold with_events. cbn [snd self fs trace]. rewrite <- !app_assoc.
  reflexivity.
Qed.

Section FetchingExact.

Variable net : Net.

Lemma lookup_domain_exact (dns_api domain : string)
    (hosts_content error_domains : list string) (w : World) :
  lookup_domain net dns_api domain (hosts_content, error_domains) w
  = (Returned
       (hosts_content ++ domain_lines net dns_api domain,
        error_domains
        ++ match resolveDomain net dns_api domain with
           | None => [domain]
           | Some _ => []
           end),
     with_events w (domain_events net dns_api domain)).
Proof.
  unfold lookup_domain, domain_lines, domain_events, resolveDomain,
    fetch_exception, try_except.
  unfold bind at 1. rewrite requests_get_eq.
  destruct (net (dns_url dns_api domain)) as [r|].
  - destruct (status_code r =? 200)%Z.
    + unfold bind, ip_addresses_of.
      destruct (json r) as [|entries].
      * rewrite app_nil_r. log_steps. reflexivity.
      * rewrite addresses_all_addresses.
        destruct (all_addresses entries) as [ips|].
        -- rewrite app_nil_r. reflexivity.
        -- rewrite app_nil_r. log_steps. reflexivity.
    + rewrite app_nil_r. reflexivity.
  - rewrite app_nil_r. log_steps. reflexivity.
Qed.

Lemma lookup_domains_exact (dns_api : string) (domains : list string) :
  forall (hosts_content error_domains : list string) (w : World),
    lookup_domains net dns_api domains (hosts_content, error_domains) w
    = (Returned
         (hosts_content ++ flat_map (domain_lines net dns_api) domains,
          error_domains
          ++ filter (fun d => match resolveDomain net dns_api d with
                              | None => true
                              | Some _ => false
                              end) domains),
       with_events w (flat_map (domain_events net dns_api) domains)).
Proof.
  induction domains as [|d rest IH]; intros hc ed w;
    cbn [lookup_domains flat_map filter].
  - rewrite !app_nil_r, with_events_nil. reflexivity.
  - unfold bind. rewrite lookup_domain_exact, IH, with_events_app.
    rewrite <- !app_assoc.
    destruct (resolveDomain net dns_api d); reflexivity.
Qed.

Lemma fetch_hosts_content_exact (w : World) :
  fetch_hosts_content net w
  = (Returned (buildBlock net (self w), failed_domains net (self w)),
     with_events w (fetch_events net (self w))).
Proof.
  unfold fetch_hosts_content, buildBlock, bulk_segment, failed_domains,
    fetch_events.
  unfold bind at 1. unfold get_self at 1. cbv beta iota.
  unfold bind at 1. unfold try_except. unfold bind at 1.
  rewrite requests_get_eq.
  destruct (net (_github_host_url (self w))) as [r|].
  - unfold ret. rewrite lookup_domains_exact, with_events_app. reflexivity.
  - log_steps. rewrite lookup_domains_exact, with_events_app. reflexivity.
Qed.

(** One run of [update_hosts], start to end. *)
Lemma update_hosts_exact (w : World) :
  update_hosts net w
  = (Returned tt,
     mkWorld (self w) (fs_after_update net w) (trace w ++ update_events net w)).
Proof.
  unfold update_hosts, fs_after_update, update_events.
  destruct (_read_system_hosts_exact w) as (lines & H0).
  unfold bind at 1. rewrite H0.
  unfold bind at 1. rewrite fetch_hosts_content_exact, with_events_app.
  cbn [fst self with_events].
  destruct (buildBlock net (self w)) as [|l hc].
  - rewrite logger_info_eq, with_events_app. unfold with_events.
    rewrite <- !app_assoc. reflexivity.
  - rewrite _write_hosts_exact. cbn [self fs trace with_events].
    rewrite <- !app_assoc. reflexivity.
Qed.

End FetchingExact.

(* ================================================================== *)
(** ** Reading back what was written *)
(* ================================================================== *)

Lemma line_shape_nonempty (l : string) : line_shape l = true -> l <> EmptyString.
Proof. destruct l; [discriminate|discriminate]. Qed.

Lemma keepends_lines_ok (s : string) : lines_ok (PyStr.keepends s) = true.
Proof.
  induction s as [|c s IH]; [reflexivity|].
  cbn [PyStr.keepends].
  destruct (Ascii.eqb c PyStr.LF) eqn:Hc.
  - cbn [lines_ok line_shape ends_with_newline]. rewrite IH.
    destruct (PyStr.keepends s); reflexivity.
  - destruct (PyStr.keepends s) as [|l ls]; [reflexivity|].
    cbn [lines_ok] in *.
    apply andb_true_iff in IH. destruct IH as [IH1 Hls].
    apply andb_true_iff in IH1. destruct IH1 as [Hl Hend].
    rewrite Hls, andb_true_r.
    destruct l as [|c' l']; [discriminate|].
    cbn [line_shape ends_with_newline] in *. rewrite Hc, Hl, Hend. reflexivity.
Qed.

Lemma lines_ok_tail (l : string) (rest : list string) :
  lines_ok (l :: rest) = true -> lines_ok rest = true.
Proof.
  cbn [lines_ok]. intros H. apply andb_true_iff in H. apply H.
Qed.

Lemma kept_lines_nil (write : bool) : kept_lines [] write = [].
Proof. reflexivity. Qed.

Lemma kept_lines_ok (lines : list string) :
  forall write, lines_ok lines = true -> lines_ok (kept_lines lines write) = true.
Proof.
  induction lines as [|l rest IH]; intros write Hok; [reflexivity|].
  pose proof (lines_ok_tail _ _ Hok) as Hrest.
  cbn [kept_lines].
  destruct (is_start l); [apply IH, Hrest|].
  destruct (is_end l); [apply IH, Hrest|].
  destruct write; [|apply IH, Hrest].
  cbn [lines_ok] in *.
  apply andb_true_iff in Hok. destruct Hok as [H1 _].
  apply andb_true_iff in H1. destruct H1 as [Hl Hend].
  rewrite Hl, (IH true Hrest), andb_true_r. cbn [andb].
  destruct rest as [|r rest']; [reflexivity|].
  rewrite Hend. destruct (kept_lines (r :: rest') true); reflexivity.
Qed.

Lemma keepends_one_line (l : string) :
  line_shape l = true -> PyStr.keepends l = [l].
Proof.
  induction l as [|c l IH]; [discriminate|].
  cbn [line_shape PyStr.keepends].
  destruct l as [|c' l'].
  - intros _. cbn [PyStr.keepends]. destruct (Ascii.eqb_spec c PyStr.LF) as [->|_];
      reflexivity.
  - intros H. apply andb_true_iff in H. destruct H as [Hc Hl].
    apply negb_true_iff in Hc. rewrite Hc, (IH Hl). reflexivity.
Qed.

Lemma keepends_first_line (l u : string) :
  line_shape l = true -> ends_with_newline l = true ->
  PyStr.keepends (l ++ u) = l :: PyStr.keepends u.
Proof.
  induction l as [|c l IH]; [discriminate|].
  cbn [line_shape ends_with_newline].
  destruct l as [|c' l'].
  - intros _ Hc. apply Ascii.eqb_eq in Hc. subst c. reflexivity.
  - intros H Hend. apply andb_true_iff in H. destruct H as [Hc Hl].
    apply negb_true_iff in Hc.
    change ((String c (String c' l') ++ u)%string)
      with (String c (String c' l' ++ u)%string).
    cbn [PyStr.keepends]. rewrite Hc, (IH Hl Hend). reflexivity.
Qed.

Lemma keepends_concat_lines (lines : list string) :
  lines_ok lines = true -> PyStr.keepends (concat_lines lines) = lines.
Proof.
  induction lines as [|l rest IH]; [reflexivity|].
  intros Hok. pose proof (lines_ok_tail _ _ Hok) as Hrest.
  cbn [lines_ok concat_lines] in *.
  apply andb_true_iff in Hok. destruct Hok as [H1 _].
  apply andb_true_iff in H1. destruct H1 as [Hl Hend].
  destruct rest as [|r rest'].
  - cbn [concat_lines]. rewrite append_nil_r. apply keepends_one_line, Hl.
  - rewrite (keepends_first_line _ _ Hl Hend), (IH Hrest). reflexivity.
Qed.

Lemma no_cr_universal_newlines (s : string) :
  no_cr s = true -> PyStr.universal_newlines s = s.
Proof.
  induction s as [|c s IH]; [reflexivity|].
  cbn [no_cr PyStr.universal_newlines]. intros H.
  apply andb_true_iff in H. destruct H as [Hc Hs].
  apply negb_true_iff in Hc. rewrite Hc, (IH Hs). reflexivity.
Qed.

Lemma universal_newlines_no_cr (n : nat) :
  forall s, String.length s <= n -> no_cr (PyStr.universal_newlines s) = true.
Proof.
  induction n as [|n IH]; intros s Hn.
  - destruct s; [reflexivity|simpl in Hn; lia].
  - destruct s as [|c s]; [reflexivity|].
    cbn [PyStr.universal_newlines String.length] in *.
    destruct (Ascii.eqb c PyStr.CR) eqn:Hc.
    + destruct s as [|c' s']; [reflexivity|].
      cbn [String.length] in Hn.
      destruct (Ascii.eqb c' PyStr.LF).
      * cbn [no_cr]. rewrite IH by lia. reflexivity.
      * cbn [no_cr]. rewrite IH by (cbn [String.length]; lia). reflexivity.
    + cbn [no_cr]. rewrite Hc, IH by lia. reflexivity.
Qed.

Lemma no_cr_append (a b : string) :
  no_cr (a ++ b) = no_cr a && no_cr b.
Proof.
  induction a as [|c a IH]; [reflexivity|].
  cbn [append no_cr]. rewrite IH, andb_assoc. reflexivity.
Qed.

Lemma keepends_no_cr (s : string) :
  no_cr s = true -> forallb no_cr (PyStr.keepends s) = true.
Proof.
  induction s as [|c s IH]; [reflexivity|].
  cbn [no_cr PyStr.keepends]. intros H.
  apply andb_true_iff in H. destruct H as [Hc Hs]. specialize (IH Hs).
  destruct (Ascii.eqb c PyStr.LF).
  - cbn [forallb]. rewrite IH. reflexivity.
  - destruct (PyStr.keepends s) as [|l ls]; cbn [forallb no_cr] in *.
    + rewrite Hc. reflexivity.
    + rewrite Hc. exact IH.
Qed.

Lemma kept_lines_no_cr (lines : list string) :
  forall write, forallb no_cr lines = true ->
                forallb no_cr (kept_lines lines write) = true.
Proof.
  induction lines as [|l rest IH]; intros write H; [reflexivity|].
  cbn [forallb kept_lines] in *.
  apply andb_true_iff in H. destruct H as [Hl Hrest].
  destruct (is_start l); [apply IH, Hrest|].
  destruct (is_end l); [apply IH, Hrest|].
  destruct write; [|apply IH, Hrest].
  cbn [forallb]. rewrite Hl, (IH true Hrest). reflexivity.
Qed.

Lemma concat_lines_no_cr (lines : list string) :
  forallb no_cr lines = true -> no_cr (concat_lines lines) = true.
Proof.
  induction lines as [|l rest IH]; [reflexivity|].
  cbn [forallb concat_lines]. intros H.
  apply andb_true_iff in H. destruct H as [Hl Hrest].
  rewrite no_cr_append, Hl, (IH Hrest). reflexivity.
Qed.

Lemma kept_lines_no_markers_left (lines : list string) :
  forall write, no_markers (kept_lines lines write) = true.
Proof.
  induction lines as [|l rest IH]; intros write; [reflexivity|].
  cbn [kept_lines].
  destruct (is_start l) eqn:Hs; [apply IH|].
  destruct (is_end l) eqn:He; [apply IH|].
  destruct write; [|apply IH].
  unfold no_markers in *. cbn [forallb]. unfold is_marker at 1.
  rewrite Hs, He. apply IH.
Qed.

(** Reading back the text the strip wrote gives the kept lines again. *)
Lemma readlines_kept_lines (t : string) (write : bool) :
  PyStr.readlines (concat_lines (kept_lines (PyStr.readlines t) write))
  = kept_lines (PyStr.readlines t) write.
Proof.
  unfold PyStr.readlines at 1.
  rewrite no_cr_universal_newlines.
  - apply keepends_concat_lines, kept_lines_ok. unfold PyStr.readlines.
    apply keepends_lines_ok.
  - apply concat_lines_no_cr, kept_lines_no_cr. unfold PyStr.readlines.
    apply keepends_no_cr, (universal_newlines_no_cr _ t (le_n _)).
Qed.

(* ================================================================== *)
(** ** What the strip leaves in the file *)
(* ================================================================== *)

Lemma fs_after_clear_fs (w : World) :
  fs (snd (_clear_system_hosts w)) = fs_after_clear (fs w).
Proof. rewrite _clear_system_hosts_exact. reflexivity. Qed.

Lemma no_markers_no_start (lines : list string) :
  no_markers lines = true -> filter is_start lines = [].
Proof.
  induction lines as [|l rest IH]; [reflexivity|].
  unfold no_markers. cbn [forallb filter]. intros H.
  apply andb_true_iff in H. destruct H as [Hl Hrest].
  unfold is_marker in Hl. apply negb_true_iff, orb_false_iff in Hl.
  destruct Hl as [-> _]. apply IH, Hrest.
Qed.

(** When the file is missing, may not be read or may not be written,
    [_clear_system_hosts] returns with the file as it was: it opens nothing
    for writing and logs one error, [FileNotFoundError] for a missing file
    and [PermissionError] otherwise. *)
Theorem clear_failure_leaves_file (w : World)
    (Hfail : hosts (fs w) = None \/ readable (fs w) = false
             \/ writable (fs w) = false) :
  exists evs,
    _clear_system_hosts w
    = (Returned tt, mkWorld (self w) (fs w) (trace w ++ evs))
    /\ errors_of evs
       = [clear_failed (match hosts (fs w) with
                        | None => FileNotFoundError
                        | Some _ => PermissionError
                        end)]
    /\ forallb (fun e => negb (is_file_write e)) evs = true.
Proof.
  rewrite _clear_system_hosts_exact. exists (clear_events (fs w)).
  unfold fs_after_clear, clear_events.
  destruct (hosts (fs w)) as [t|].
  - destruct (readable (fs w)); [destruct (writable (fs w))|].
    + destruct Hfail as [H|[H|H]]; discriminate.
    + repeat split.
    + repeat split.
  - repeat split.
Qed.

Lemma clear_failure_leaves_file_witness :
  exists evs,
    _clear_system_hosts read_only_world
    = (Returned tt,
       mkWorld (self read_only_world) (fs read_only_world)
               (trace read_only_world ++ evs))
    /\ errors_of evs = [clear_failed PermissionError]
    /\ forallb (fun e => negb (is_file_write e)) evs = true.
Proof.
  apply (clear_failure_leaves_file read_only_world).
  right. right. reflexivity.
Defined.

(** On a file that can be read and written, [_clear_system_hosts] leaves the
    kept lines and nothing else: read back, the file has no marker line, and
    the characters it lost went back to the device. *)
Theorem clear_leaves_no_marker (w : World) (t : string)
    (Ht : hosts (fs w) = Some t)
    (Hr : readable (fs w) = true) (Hw : writable (fs w) = true) :
  let f' := fs (snd (_clear_system_hosts w)) in
  hosts f' = Some (concat_lines (kept_lines (PyStr.readlines t) true))
  /\ PyStr.readlines (text_of f') = kept_lines (PyStr.readlines t) true
  /\ no_markers (PyStr.readlines (text_of f')) = true
  /\ start_marker_count f' = 0
  /\ free f' + String.length (text_of f') = free (fs w) + String.length t.
Proof.
  intros f'. subst f'. rewrite fs_after_clear_fs.
  unfold fs_after_clear, start_marker_count, text_of. rewrite Ht, Hr, Hw.
  cbn [andb hosts free]. rewrite readlines_kept_lines.
  pose proof (kept_lines_no_markers_left (PyStr.readlines t) true) as Hnone.
  pose proof (kept_text_fits t) as Hfit.
  repeat split; try assumption.
  - rewrite (no_markers_no_start _ Hnone). reflexivity.
  - lia.
Qed.

Lemma clear_leaves_no_marker_witness :
  start_marker_count
    (fs (snd (_clear_system_hosts
                (fresh_world (localhost_line ++ concat_lines two_blocks) 0))))
  = 0.
Proof.
  destruct (clear_leaves_no_marker
              (fresh_world (localhost_line ++ concat_lines two_blocks) 0)
              (localhost_line ++ concat_lines two_blocks)
              eq_refl eq_refl eq_refl) as (_ & _ & _ & H & _).
  exact H.
Defined.

Lemma fs_after_clear_twice (f : FS) :
  fs_after_clear (fs_after_clear f) = fs_after_clear f.
Proof.
  unfold fs_after_clear at 2.
  destruct (hosts f) as [t|] eqn:Ht.
  2:{ unfold fs_after_clear. rewrite Ht. reflexivity. }
  destruct (readable f && writable f) eqn:Hrw.
  2:{ unfold fs_after_clear. rewrite Ht, Hrw. reflexivity. }
  apply andb_true_iff in Hrw. destruct Hrw as [Hr Hw].
  unfold fs_after_clear. cbn [hosts readable writable free].
  rewrite Hr, Hw. cbn [andb].
  rewrite readlines_kept_lines.
  rewrite (kept_lines_identity _ (kept_lines_no_markers_left _ true)).
  rewrite ?Ht, ?Hr, ?Hw. cbn [andb]. f_equal. lia.
Qed.

(** A second [_clear_system_hosts] right after the first changes nothing in
    the file, whatever the file was. *)
Theorem clear_twice_is_clear_once (w : World) :
  let w1 := snd (_clear_system_hosts w) in
  fst (_clear_system_hosts w1) = Returned tt
  /\ fs (snd (_clear_system_hosts w1)) = fs w1.
Proof.
  intros w1. subst w1. split.
  - rewrite (_clear_system_hosts_exact (snd (_clear_system_hosts w))).
    reflexivity.
  - rewrite !fs_after_clear_fs. apply fs_after_clear_twice.
Qed.

(** On a file without marker lines [_clear_system_hosts] keeps every line;
    the text it writes back is the text as read, with [\r\n] and [\r] turned
    into [\n].  A file without carriage returns is left exactly as it was. *)
Theorem clear_without_block (w : World) (t : string)
    (Ht : hosts (fs w) = Some t)
    (Hr : readable (fs w) = true) (Hw : writable (fs w) = true)
    (Hnone : no_markers (PyStr.readlines t) = true) :
  hosts (fs (snd (_clear_system_hosts w))) = Some (PyStr.universal_newlines t)
  /\ (no_cr t = true -> fs (snd (_clear_system_hosts w)) = fs w).
Proof.
  rewrite fs_after_clear_fs. unfold fs_after_clear. rewrite Ht, Hr, Hw.
  cbn [andb hosts]. rewrite (kept_lines_identity _ Hnone).
  unfold PyStr.readlines. rewrite concat_keepends. split; [reflexivity|].
  intros Hcr. rewrite (no_cr_universal_newlines t Hcr).
  destruct (fs w) as [h r wr fr]. cbn in *. subst. f_equal. lia.
Qed.

Lemma clear_without_block_witness :
  fs (snd (_clear_system_hosts (fresh_world localhost_line 7)))
  = fs (fresh_world localhost_line 7).
Proof.
  destruct (clear_without_block (fresh_world localhost_line 7) localhost_line
              eq_refl eq_refl eq_refl eq_refl) as (_ & H).
  apply H. reflexivity.
Defined.

(* ================================================================== *)
(** ** Update, then strip *)
(* ================================================================== *)

Lemma universal_newlines_append (t u : string) :
  no_cr t = true ->
  PyStr.universal_newlines (t ++ u) = (t ++ PyStr.universal_newlines u)%string.
Proof.
  induction t as [|c t IH]; [reflexivity|].
  cbn [no_cr]. intros H. apply andb_true_iff in H. destruct H as [Hc Ht].
  apply negb_true_iff in Hc.
  change ((String c t ++ u)%string) with (String c (t ++ u)%string).
  cbn [PyStr.universal_newlines]. rewrite Hc, (IH Ht). reflexivity.
Qed.

Lemma keepends_nonempty (s : string) :
  s <> EmptyString -> PyStr.keepends s <> [].
Proof.
  destruct s as [|c s]; [congruence|]. intros _. cbn [PyStr.keepends].
  destruct (Ascii.eqb c PyStr.LF); [discriminate|].
  destruct (PyStr.keepends s); discriminate.
Qed.

Lemma keepends_append (t u : string) :
  complete_text t = true ->
  PyStr.keepends (t ++ u) = PyStr.keepends t ++ PyStr.keepends u.
Proof.
  induction t as [|c t IH]; [reflexivity|].
  intros Hc. cbn [complete_text ends_with_newline] in Hc.
  change ((String c t ++ u)%string) with (String c (t ++ u)%string).
  cbn [PyStr.keepends].
  destruct (Ascii.eqb c PyStr.LF) eqn:Hlf.
  - rewrite IH; [reflexivity|]. destruct t; [reflexivity|exact Hc].
  - destruct t as [|c' t']; [congruence|].
    rewrite IH by exact Hc.
    pose proof (keepends_nonempty (String c' t') ltac:(discriminate)) as Hne.
    destruct (PyStr.keepends (String c' t')) as [|l ls]; [congruence|].
    reflexivity.
Qed.

Lemma ends_with_newline_append_nl (s : string) :
  ends_with_newline (s ++ nl) = true.
Proof.
  induction s as [|c s IH]; [reflexivity|].
  change ((String c s ++ nl)%string) with (String c (s ++ nl)%string).
  cbn [ends_with_newline]. destruct (s ++ nl)%string eqn:E; [|exact IH].
  destruct s; discriminate.
Qed.

(** A block whose content has no carriage return and no line that is an end
    marker is removed whole by the strip loop. *)
Lemma block_stripped_whole (hosts_content : list string) :
  no_cr (PyStr.join nl hosts_content) = true ->
  no_end_marker (PyStr.keepends (PyStr.join nl hosts_content ++ nl)) = true ->
  kept_lines (PyStr.readlines (block_text hosts_content)) true = [].
Proof.
  intros Hcr Hend. unfold PyStr.readlines, block_text.
  set (J := PyStr.join nl hosts_content) in *.
  rewrite no_cr_universal_newlines
    by (rewrite !no_cr_append, Hcr; reflexivity).
  rewrite keepends_first_line by reflexivity.
  replace (J ++ nl ++ END_MARKER ++ nl)%string
    with ((J ++ nl) ++ (END_MARKER ++ nl))%string by apply append_assoc.
  rewrite keepends_append.
  2:{ unfold complete_text. pose proof (ends_with_newline_append_nl J) as H.
      destruct (J ++ nl)%string; [reflexivity|exact H]. }
  cbn [kept_lines].
  replace (is_start (START_MARKER ++ nl)) with true by reflexivity.
  rewrite (kept_lines_inside_block _ _ Hend). reflexivity.
Qed.

(** One update cycle followed by the strip gives the hosts file back as it
    was: text, permissions and free space.  This needs a file that can be
    read and written, has no carriage return, ends every line with a line
    feed and holds no marker line; a block that the strip loop, run over the
    block alone, removes whole; and room for the block on the device. *)
Theorem clear_after_update_restores_file (net : Net) (w : World) (t : string)
    (Ht : hosts (fs w) = Some t)
    (Hr : readable (fs w) = true) (Hw : writable (fs w) = true)
    (Hcr : no_cr t = true) (Hcomplete : complete_text t = true)
    (Hnone : no_markers (PyStr.readlines t) = true)
    (Hblock : buildBlock net (self w) <> [])
    (Hwhole : kept_lines
                (PyStr.readlines (block_text (buildBlock net (self w)))) true
              = [])
    (Hfit : String.length (block_text (buildBlock net (self w))) <= free (fs w)) :
  let w1 := snd (update_hosts net w) in
  hosts (fs w1) = Some (t ++ block_text (buildBlock net (self w)))%string
  /\ fs (snd (_clear_system_hosts w1)) = fs w.
Proof.
  intros w1. subst w1. rewrite update_hosts_exact. cbn [snd].
  rewrite fs_after_clear_fs. cbn [fs].
  rewrite (fs_after_update_appends net w Hw Hblock Hfit).
  assert (Htext : text_of (fs w) = t) by (unfold text_of; rewrite Ht; reflexivity).
  rewrite Htext. split; [reflexivity|].
  set (B := block_text (buildBlock net (self w))) in *.
  unfold fs_after_clear. cbn [hosts readable writable free]. rewrite Hr.
  cbn [andb].
  assert (Hlines : PyStr.readlines (t ++ B) = PyStr.readlines t ++ PyStr.readlines B).
  { unfold PyStr.readlines.
    rewrite (universal_newlines_append t B Hcr).
    rewrite (keepends_append _ _ Hcomplete).
    rewrite (no_cr_universal_newlines t Hcr). reflexivity. }
  rewrite Hlines, (kept_lines_no_markers _ _ Hnone), Hwhole, app_nil_r.
  unfold PyStr.readlines. rewrite concat_keepends.
  rewrite (no_cr_universal_newlines t Hcr), length_append.
  destruct (fs w) as [h r wr fr]. cbn in *. subst. f_equal. lia.
Qed.

Lemma clear_after_update_restores_file_witness :
  fs (snd (_clear_system_hosts (snd (update_hosts scenario_net scenario_world))))
  = fs scenario_world.
Proof.
  destruct (clear_after_update_restores_file scenario_net scenario_world
              localhost_line eq_refl eq_refl eq_refl eq_refl eq_refl eq_refl
              ltac:(discriminate) eq_refl ltac:(vm_compute; lia))
    as (_ & H).
  exact H.
Defined.

(* ================================================================== *)
(** ** The requests and the log of one update cycle *)
(* ================================================================== *)

Lemma requests_of_app (a b : list event) :
  requests_of (a ++ b) = requests_of a ++ requests_of b.
Proof. apply flat_map_app. Qed.

Lemma errors_of_app (a b : list event) :
  errors_of (a ++ b) = errors_of a ++ errors_of b.
Proof. apply flat_map_app. Qed.

Lemma requests_of_wrote_events (lines : list string) :
  forall n, requests_of (wrote_events n lines) = [].
Proof.
  induction lines as [|l rest IH]; intros n; [reflexivity|].
  cbn [wrote_events]. destruct (String.length l <=? n)%nat; cbn; auto.
Qed.

Lemma requests_of_domains (net : Net) (dns_api : string) (domains : list string) :
  requests_of (flat_map (domain_events net dns_api) domains)
  = map (dns_url dns_api) domains.
Proof.
  induction domains as [|d rest IH]; [reflexivity|].
  cbn [flat_map map]. rewrite requests_of_app, IH. unfold domain_events.
  destruct (fetch_exception net dns_api d); reflexivity.
Qed.

Lemma domains_never_write (net : Net) (dns_api : string) (domains : list string) :
  forallb (fun e => negb (is_file_write e))
          (flat_map (domain_events net dns_api) domains) = true.
Proof.
  induction domains as [|d rest IH]; [reflexivity|].
  cbn [flat_map]. rewrite forallb_app, IH. unfold domain_events.
  destruct (fetch_exception net dns_api d); reflexivity.
Qed.

(** One run of [update_hosts] requests the bulk list and then every
    configured domain, once each and in the order of the domain list,
    whatever the earlier requests gave; and all requests are done before the
    hosts file is opened for writing. *)
Theorem update_hosts_requests_every_domain (net : Net) (w : World) :
  exists before after,
    trace (snd (update_hosts net w)) = trace w ++ before ++ after
    /\ requests_of before
       = _github_host_url (self w)
         :: map (dns_url (_dns_api (self w))) (_domain_list (self w))
    /\ forallb (fun e => negb (is_file_write e)) before = true
    /\ requests_of after = [].
Proof.
  rewrite update_hosts_exact. cbn [snd trace]. unfold update_events.
  exists (read_events (fs w) ++ fetch_events net (self w)).
  eexists. split; [rewrite <- app_assoc; reflexivity|].
  unfold read_events, fetch_events. split; [|split].
  - rewrite requests_of_app.
    replace (requests_of match hosts (fs w) with
                         | Some _ =>
                             if readable (fs w) then [Opened mode_r]
                             else [Logged ERROR (read_failed PermissionError)]
                         | None => [Logged ERROR (read_failed FileNotFoundError)]
                         end) with (@nil string)
      by (destruct (hosts (fs w)); [destruct (readable (fs w))|]; reflexivity).
    cbn [app requests_of flat_map]. f_equal.
    fold (requests_of
            (match net (_github_host_url (self w)) with
             | Some _ => []
             | None => [Logged ERROR (cannot_get_github_hosts ConnectionError)]
             end ++ flat_map (domain_events net (_dns_api (self w)))
                             (_domain_list (self w)))).
    rewrite requests_of_app, requests_of_domains.
    destruct (net (_github_host_url (self w))); reflexivity.
  - rewrite forallb_app. cbn [forallb is_file_write negb andb].
    rewrite forallb_app, domains_never_write.
    destruct (hosts (fs w)); [destruct (readable (fs w))|];
      destruct (net (_github_host_url (self w))); reflexivity.
  - destruct (buildBlock net (self w)); [reflexivity|].
    unfold write_hosts_events. destruct (writable (fs w)); [|reflexivity].
    cbn [requests_of flat_map app]. fold (requests_of).
    change (flat_map (fun e => match e with Requested url => [url] | _ => [] end))
      with requests_of.
    rewrite requests_of_app, requests_of_wrote_events.
    destruct (_ <=? _)%nat; reflexivity.
Qed.

(** The error records of the fetching part of [update_hosts] are one record
    for the bulk request when it raised and, in the order of the domain
    list, one record for each domain whose lookup raised.  A domain that is
    answered with a status other than 200 gives no line, goes to
    [error_domains] and leaves no record in the log. *)
Theorem fetch_logs_only_exceptions (net : Net) (w : World) :
  exists evs,
    fetch_hosts_content net w
    = (Returned (buildBlock net (self w), failed_domains net (self w)),
       with_events w evs)
    /\ errors_of evs
       = match net (_github_host_url (self w)) with
         | None => [cannot_get_github_hosts ConnectionError]
         | Some _ => []
         end
         ++ flat_map
              (fun d => match fetch_exception net (_dns_api (self w)) d with
                        | Some e => [cannot_get_ip d e]
                        | None => []
                        end)
              (_domain_list (self w))
    /\ (forall d r,
          net (dns_url (_dns_api (self w)) d) = Some r ->
          status_code r <> 200%Z ->
          domain_lines net (_dns_api (self w)) d = []
          /\ (In d (_domain_list (self w)) ->
              In d (failed_domains net (self w)))
          /\ forall e, ~ In (cannot_get_ip d e) (errors_of evs)).
Proof.
  exists (fetch_events net (self w)).
  split; [apply fetch_hosts_content_exact|].
  assert (Herr : errors_of (fetch_events net (self w))
                 = match net (_github_host_url (self w)) with
                   | None => [cannot_get_github_hosts ConnectionError]
                   | Some _ => []
                   end
                   ++ flat_map
                        (fun d => match fetch_exception net (_dns_api (self w)) d with
                                  | Some e => [cannot_get_ip d e]
                                  | None => []
                                  end)
                        (_domain_list (self w))).
  { unfold fetch_events.
    change (errors_of (?x :: ?l)) with (errors_of [x] ++ errors_of l).
    rewrite errors_of_app. cbn [errors_of flat_map app].
    f_equal; [destruct (net (_github_host_url (self w))); reflexivity|].
    fold errors_of.
    induction (_domain_list (self w)) as [|d rest IH]; [reflexivity|].
    cbn [flat_map]. rewrite errors_of_app, IH. f_equal.
    unfold domain_events.
    destruct (fetch_exception net (_dns_api (self w)) d); reflexivity. }
  split; [exact Herr|].
  intros d r Hr Hstatus.
  apply Z.eqb_neq in Hstatus.
  assert (Hres : resolveDomain net (_dns_api (self w)) d = None)
    by (unfold resolveDomain; rewrite Hr, Hstatus; reflexivity).
  assert (Hexc : fetch_exception net (_dns_api (self w)) d = None)
    by (unfold fetch_exception; rewrite Hr, Hstatus; reflexivity).
  split; [unfold domain_lines; rewrite Hres; reflexivity|]. split.
  - intros Hin. unfold failed_domains. apply filter_In. split; [exact Hin|].
    rewrite Hres. reflexivity.
  - intros e Hin. rewrite Herr in Hin. apply in_app_or in Hin.
    destruct Hin as [Hin|Hin].
    + destruct (net (_github_host_url (self w))); simpl in Hin;
        [contradiction|destruct Hin as [Hin|[]]; discriminate].
    + apply in_flat_map in Hin. destruct Hin as (d' & _ & Hin).
      destruct (fetch_exception net (_dns_api (self w)) d') as [e'|] eqn:He';
        simpl in Hin; [|contradiction].
      destruct Hin as [Hin|[]]. injection Hin as -> ->. congruence.
Qed.

Lemma fetch_logs_only_exceptions_witness :
  domain_lines failing_lookup_net (_dns_api (self scenario_world))
               "x.example.com" = []
  /\ In "x.example.com"%string (failed_domains failing_lookup_net
                                  (self scenario_world)).
Proof.
  destruct (fetch_logs_only_exceptions failing_lookup_net scenario_world)
    as (evs & _ & _ & H).
  destruct (H "x.example.com"%string
              (mkResponse 500 EmptyString json_error) eq_refl
              ltac:(discriminate)) as (H1 & H2 & _).
  split; [exact H1|]. apply H2. left. reflexivity.
Defined.

(** Whatever the bulk request returns is written: its status code is not
    looked at and its text may be empty.  When no domain gives a line, the
    block is that text alone between the two markers. *)
Theorem bulk_response_is_written_unchecked (net : Net) (w : World) (r : Response)
    (Hbulk : net (_github_host_url (self w)) = Some r)
    (Hdomains : forall d, In d (_domain_list (self w)) ->
                          domain_lines net (_dns_api (self w)) d = [])
    (Hw : writable (fs w) = true)
    (Hfit : String.length (block_text [text r]) <= free (fs w)) :
  buildBlock net (self w) = [text r]
  /\ hosts (fs (snd (update_hosts net w)))
     = Some (text_of (fs w) ++ (START_MARKER ++ nl) ++ text r
               ++ (nl ++ END_MARKER ++ nl))%string.
Proof.
  assert (Hb : buildBlock net (self w) = [text r]).
  { unfold buildBlock, bulk_segment. rewrite Hbulk. cbn [app]. f_equal.
    induction (_domain_list (self w)) as [|d rest IH]; [reflexivity|].
    cbn [flat_map]. rewrite (Hdomains d (or_introl eq_refl)).
    apply IH. intros d' Hd'. apply Hdomains. right. exact Hd'. }
  split; [exact Hb|].
  rewrite update_hosts_exact. cbn [snd fs].
  rewrite fs_after_update_appends; rewrite ?Hb; try assumption; try discriminate.
  reflexivity.
Qed.

Lemma bulk_response_is_written_unchecked_witness :
  hosts (fs (snd (update_hosts
                    (fun url =>
                       if (url =? "https://hosts.gitcdn.top/hosts.txt")%string
                       then Some (mkResponse 404 EmptyString json_error)
                       else None)
                    scenario_world)))
  = Some (localhost_line ++ (START_MARKER ++ nl) ++ (nl ++ END_MARKER ++ nl))%string.
Proof.
  destruct (bulk_response_is_written_unchecked
              (fun url =>
                 if (url =? "https://hosts.gitcdn.top/hosts.txt")%string
                 then Some (mkResponse 404 EmptyString json_error)
                 else None)
              scenario_world (mkResponse 404 EmptyString json_error) eq_refl)
    as (_ & H).
  - intros d [<-|[]]. reflexivity.
  - reflexivity.
  - vm_compute. lia.
  - exact H.
Defined.

(* ================================================================== *)
(** ** Arming and disarming *)
(* ================================================================== *)

Lemma setup_scheduler_without_scheduler_eq (w : World)
    (Hnone : _scheduler (self w) = None) :
  setup_scheduler w
  = match interval_of (_schedule_interval (self w)) with
    | Some t =>
        (Returned tt,
         mkWorld (with_scheduler (self w)
                    (Some (mkScheduler true [mkJob self_update_hosts t])))
                 (fs w)
                 (trace w ++ [JobAdded (mkJob self_update_hosts t); Started;
                              Logged INFO (scheduler_started
                                             (_schedule_interval (self w)))]))
    | None =>
        (Returned tt,
         mkWorld (with_scheduler (self w) (Some (mkScheduler false [])))
                 (fs w) (trace w))
    end.
Proof.
  destruct w as [[en dl gh api sc si] f tr]. cbn [self _scheduler] in Hnone.
  subst sc. unfold setup_scheduler, bind, get_self. cbn.
  destruct (interval_of si) as [t|]; cbn; [|reflexivity].
  rewrite logger_info_eq. unfold with_events. cbn [self fs trace].
  rewrite <- !app_assoc. reflexivity.
Qed.

(** On a plugin that has no scheduler yet, [setup_scheduler] raises nothing
    and leaves the file alone.  With one of the three intervals it creates
    the scheduler, adds one job with the trigger of the interval and starts
    it: one timer is armed.  With any other interval, or none, it creates a
    scheduler that is not started and has no job: nothing is armed and
    nothing is logged. *)
Theorem setup_scheduler_first_time (w : World)
    (Hnone : _scheduler (self w) = None) :
  setup_scheduler w
  = match interval_of (_schedule_interval (self w)) with
    | Some t =>
        (Returned tt,
         mkWorld (with_scheduler (self w)
                    (Some (mkScheduler true [mkJob self_update_hosts t])))
                 (fs w)
                 (trace w ++ [JobAdded (mkJob self_update_hosts t); Started;
                              Logged INFO (scheduler_started
                                             (_schedule_interval (self w)))]))
    | None =>
        (Returned tt,
         mkWorld (with_scheduler (self w) (Some (mkScheduler false [])))
                 (fs w) (trace w))
    end
  /\ (interval_of (_schedule_interval (self w)) <> None
      <-> In (_schedule_interval (self w))
             [Some "1hour"%string; Some "1day"%string; Some "1week"%string])
  /\ interval_of (Some "1hour"%string) = Some (mkIntervalTrigger 0 0 1)
  /\ interval_of (Some "1day"%string) = Some (mkIntervalTrigger 0 1 0)
  /\ interval_of (Some "1week"%string) = Some (mkIntervalTrigger 1 0 0).
Proof.
  split; [exact (setup_scheduler_without_scheduler_eq w Hnone)|].
  split; [|repeat split].
  destruct (_schedule_interval (self w)) as [i|]; unfold interval_of.
  - split.
    + intros H.
      destruct (i =? "1hour")%string eqn:E1;
        [apply String.eqb_eq in E1; left; congruence|].
      destruct (i =? "1day")%string eqn:E2;
        [apply String.eqb_eq in E2; right; left; congruence|].
      destruct (i =? "1week")%string eqn:E3;
        [apply String.eqb_eq in E3; right; right; left; congruence|].
      congruence.
    + intros [H|[H|[H|[]]]]; injection H as <-; discriminate.
  - split; [congruence|]. intros [H|[H|[H|[]]]]; discriminate.
Qed.

Lemma setup_scheduler_first_time_witness :
  armed_timers (_scheduler (self (snd (setup_scheduler scenario_world))))
  = [mkJob self_update_hosts (mkIntervalTrigger 0 0 1)].
Proof.
  destruct (setup_scheduler_first_time scenario_world eq_refl) as (H & _).
  rewrite H. reflexivity.
Defined.

(** [stop_service] on a running scheduler shuts it down first and strips the
    file afterwards: it returns, no timer is armed any more, the plugin is
    otherwise as it was, and the file is the one [_clear_system_hosts]
    leaves. *)
Theorem stop_service_disarms_then_strips (w : World) (sch : BackgroundScheduler)
    (Hsch : _scheduler (self w) = Some sch) (Hrun : running sch = true) :
  stop_service w
  = (Returned tt,
     mkWorld (with_scheduler (self w) (Some (mkScheduler false [])))
             (fs_after_clear (fs w))
             (trace w ++ [ShutDown] ++ clear_events (fs w)
                ++ [Logged INFO plugin_disabled]))
  /\ armed_timers (_scheduler (self (snd (stop_service w)))) = [].
Proof.
  assert (Heq : stop_service w
                = (Returned tt,
                   mkWorld (with_scheduler (self w) (Some (mkScheduler false [])))
                           (fs_after_clear (fs w))
                           (trace w ++ [ShutDown] ++ clear_events (fs w)
                              ++ [Logged INFO plugin_disabled]))).
  { unfold stop_service. unfold bind at 1. unfold get_self at 1.
    cbv beta iota. rewrite Hsch.
    unfold bind at 1.
    assert (Hshut : shutdown w
                    = (Returned tt,
                       mkWorld (with_scheduler (self w)
                                  (Some (mkScheduler false [])))
                               (fs w) (trace w ++ [ShutDown]))).
    { destruct w as [[en dl gh api sc si] f tr]. cbn [self _scheduler] in Hsch.
      subst sc. unfold shutdown, bind, get_self. cbn. rewrite Hrun.
      reflexivity. }
    rewrite Hshut. unfold bind at 1.
    rewrite _clear_system_hosts_exact, logger_info_eq.
    unfold with_events. cbn [self fs trace]. rewrite <- !app_assoc.
    reflexivity. }
  split; [exact Heq|]. rewrite Heq. reflexivity.
Qed.

Lemma stop_service_disarms_then_strips_witness :
  armed_timers
    (_scheduler
       (self (snd (stop_service
                     (snd (init_plugin scenario_net (Some scenario_config)
                             (fresh_world localhost_line 1000)))))))
  = [].
Proof.
  destruct (stop_service_disarms_then_strips
              (snd (init_plugin scenario_net (Some scenario_config)
                      (fresh_world localhost_line 1000)))
              (mkScheduler true [mkJob self_update_hosts (mkIntervalTrigger 0 0 1)])
              eq_refl eq_refl) as (_ & H).
  exact H.
Defined.

(** [stop_service] on a plugin that never had a scheduler only strips the
    file: it returns and leaves the plugin as it was, and a second call
    returns too and changes nothing more in the file. *)
Theorem stop_service_without_scheduler (w : World)
    (Hnone : _scheduler (self w) = None) :
  let w1 := snd (stop_service w) in
  stop_service w
  = (Returned tt,
     mkWorld (self w) (fs_after_clear (fs w))
             (trace w ++ clear_events (fs w) ++ [Logged INFO plugin_disabled]))
  /\ fst (stop_service w1) = Returned tt
  /\ fs (snd (stop_service w1)) = fs w1.
Proof.
  assert (Hstop : forall v, _scheduler (self v) = None ->
            stop_service v
            = (Returned tt,
               mkWorld (self v) (fs_after_clear (fs v))
                       (trace v ++ clear_events (fs v)
                          ++ [Logged INFO plugin_disabled]))).
  { intros v Hv. unfold stop_service. unfold bind at 1. unfold get_self at 1.
    cbv beta iota. rewrite Hv. unfold bind at 1. unfold ret at 1.
    unfold bind at 1. rewrite _clear_system_hosts_exact, logger_info_eq.
    unfold with_events. cbn [self fs trace]. rewrite <- app_assoc.
    reflexivity. }
  intros w1. subst w1. rewrite (Hstop w Hnone). cbn [snd].
  split; [reflexivity|].
  rewrite Hstop by exact Hnone. cbn [fst snd fs].
  split; [reflexivity|apply fs_after_clear_twice].
Qed.

Lemma stop_service_without_scheduler_witness :
  fs (snd (stop_service (snd (stop_service scenario_world))))
  = fs (snd (stop_service scenario_world)).
Proof.
  destruct (stop_service_without_scheduler scenario_world eq_refl)
    as (_ & _ & H).
  exact H.
Defined.

(* ================================================================== *)
(** ** Configuring *)
(* ================================================================== *)

Lemma setup_scheduler_self (w : World) :
  self (snd (setup_scheduler w))
  = with_scheduler (self w) (_scheduler (self (snd (setup_scheduler w)))).
Proof.
  destruct w as [[en dl gh api [[r js]|] si] f tr];
    unfold setup_scheduler, bind, get_self; cbn;
    destruct (interval_of si) as [t|]; cbn; try reflexivity;
    destruct r; reflexivity.
Qed.

Lemma init_plugin_eq (net : Net) (config : Config) (w : World) :
  has_keys config = true ->
  init_plugin net (Some config) w
  = (if get (enabled config) false
     then update_hosts net ;; setup_scheduler
     else _clear_system_hosts)
      (mkWorld (configured (self w) config) (fs w) (trace w)).
Proof.
  intros Hkeys. unfold init_plugin. rewrite Hkeys. reflexivity.
Qed.

(** [init_plugin] with a configuration that has a key stores the settings
    before it runs anything, and they stay whatever happens afterwards:
    [enabled] defaults to false and the interval to ["1hour"] when their keys
    are missing; the two URLs are never changed.  With no configuration, or
    one without keys, nothing at all happens. *)
Theorem init_plugin_stores_settings (net : Net) (config : Config) (w : World) :
  (has_keys config = true ->
   let s' := self (snd (init_plugin net (Some config) w)) in
   s' = with_scheduler (configured (self w) config) (_scheduler s')
   /\ _enabled s' = get (enabled config) false
   /\ _schedule_interval s'
      = Some (get (schedule_interval config) "1hour"%string)
   /\ _github_host_url s' = _github_host_url (self w)
   /\ _dns_api s' = _dns_api (self w))
  /\ (has_keys config = false ->
      init_plugin net (Some config) w = (Returned tt, w))
  /\ init_plugin net None w = (Returned tt, w).
Proof.
  split; [|split; [|reflexivity]].
  - intros Hkeys s'. subst s'.
    assert (Hself : self (snd (init_plugin net (Some config) w))
                    = with_scheduler (configured (self w) config)
                        (_scheduler (self (snd (init_plugin net (Some config) w))))).
    { rewrite (init_plugin_eq net config w Hkeys).
      remember (configured (self w) config) as s0 eqn:Hs0.
      destruct (get (enabled config) false).
      - unfold bind. rewrite update_hosts_exact.
        match goal with |- context [setup_scheduler ?X] =>
          pose proof (setup_scheduler_self X) as H end.
        rewrite H. reflexivity.
      - rewrite _clear_system_hosts_exact. cbn [snd self].
        destruct s0; reflexivity. }
    split; [exact Hself|]. rewrite Hself. repeat split.
  - intros Hkeys. unfold init_plugin. rewrite Hkeys. reflexivity.
Qed.

Lemma init_plugin_stores_settings_witness :
  _schedule_interval
    (self (snd (init_plugin scenario_net
                  (Some (mkConfig (Some true) None None))
                  (fresh_world localhost_line 1000))))
  = Some "1hour"%string.
Proof.
  destruct (init_plugin_stores_settings scenario_net
              (mkConfig (Some true) None None)
              (fresh_world localhost_line 1000)) as (H & _).
  destruct (H eq_refl) as (_ & _ & Hi & _). exact Hi.
Defined.

(** The first [init_plugin] with [enabled] true, on a plugin without a
    scheduler, returns; it runs one whole update cycle with the new settings
    and arms the scheduler only afterwards, without a further request or
    write.  One timer is armed for one of the three intervals, none for any
    other. *)
Theorem init_plugin_updates_then_arms (net : Net) (config : Config) (w : World)
    (Hkeys : has_keys config = true)
    (Hon : get (enabled config) false = true)
    (Hnone : _scheduler (self w) = None) :
  let w0 := mkWorld (configured (self w) config) (fs w) (trace w) in
  let r := init_plugin net (Some config) w in
  fst r = Returned tt
  /\ fs (snd r) = fs_after_update net w0
  /\ armed_timers (_scheduler (self (snd r)))
     = match interval_of
               (Some (get (schedule_interval config) "1hour"%string)) with
       | Some t => [mkJob self_update_hosts t]
       | None => []
       end
  /\ exists evs,
       trace (snd r) = trace w ++ update_events net w0 ++ evs
       /\ requests_of evs = []
       /\ forallb (fun e => negb (is_file_write e)) evs = true.
Proof.
  intros w0 r. subst r.
  rewrite (init_plugin_eq net config w Hkeys), Hon. fold w0.
  unfold bind. rewrite update_hosts_exact.
  rewrite setup_scheduler_without_scheduler_eq by exact Hnone.
  cbn [self fs trace]. change (self w0) with (configured (self w) config).
  change (_schedule_interval (configured (self w) config))
    with (Some (get (schedule_interval config) "1hour"%string)).
  destruct (interval_of (Some (get (schedule_interval config) "1hour"%string)))
    as [t|]; cbn [fst snd self fs trace with_scheduler _scheduler armed_timers
                  running jobs].
  - repeat split. eexists. rewrite <- app_assoc. repeat split.
  - repeat split. exists []. rewrite app_nil_r. repeat split.
Qed.

Lemma init_plugin_updates_then_arms_witness :
  fs (snd (init_plugin scenario_net (Some scenario_config)
             (fresh_world localhost_line 1000)))
  = fs_after_update scenario_net
      (mkWorld (configured new_BetterHosts scenario_config)
               (fs (fresh_world localhost_line 1000)) []).
Proof.
  destruct (init_plugin_updates_then_arms scenario_net scenario_config
              (fresh_world localhost_line 1000) eq_refl eq_refl eq_refl)
    as (_ & H & _).
  exact H.
Defined.

Lemma init_plugin_disabled_eq (net : Net) (config : Config)
    (w : World)
    (Hkeys : has_keys config = true)
    (Hoff : get (enabled config) false = false) :
  init_plugin net (Some config) w
  = (Returned tt,
     mkWorld (configured (self w) config) (fs_after_clear (fs w))
             (trace w ++ clear_events (fs w)))
  /\ requests_of (clear_events (fs w)) = []
  /\ _scheduler (configured (self w) config) = _scheduler (self w).
Proof.
  rewrite (init_plugin_eq net config w Hkeys), Hoff.
  rewrite _clear_system_hosts_exact. cbn [self fs trace].
  split; [reflexivity|]. split; [|reflexivity].
  unfold clear_events.
  destruct (hosts (fs w)) as [t|]; [|reflexivity].
  destruct (readable (fs w)); [|reflexivity].
  destruct (writable (fs w)); [|reflexivity].
  cbn [app requests_of flat_map].
  change (flat_map (fun e => match e with Requested url => [url] | _ => [] end))
    with requests_of.
  rewrite requests_of_app.
  induction (kept_lines (PyStr.readlines t) true) as [|l ls IH]; [reflexivity|].
  exact IH.
Qed.

(** [init_plugin] with [enabled] false (or without that key) returns after
    the strip alone: it sends no request, leaves the scheduler as it is,
    and the file is the one [_clear_system_hosts] leaves. *)
Theorem init_plugin_disabled_only_strips (net : Net) (config : Config)
    (w : World)
    (Hkeys : has_keys config = true)
    (Hoff : get (enabled config) false = false) :
  init_plugin net (Some config) w
  = (Returned tt,
     mkWorld (configured (self w) config) (fs_after_clear (fs w))
             (trace w ++ clear_events (fs w)))
  /\ requests_of (clear_events (fs w)) = []
  /\ _scheduler (configured (self w) config) = _scheduler (self w).
Proof. exact (init_plugin_disabled_eq net config w Hkeys Hoff). Qed.

Lemma init_plugin_disabled_only_strips_witness :
  init_plugin scenario_net (Some disabled_config) scenario_world
  = (Returned tt,
     mkWorld (configured (self scenario_world) disabled_config)
             (fs_after_clear (fs scenario_world))
             (trace scenario_world ++ clear_events (fs scenario_world))).
Proof.
  destruct (init_plugin_disabled_only_strips scenario_net disabled_config
              scenario_world eq_refl eq_refl) as (H & _).
  exact H.
Defined.

(* ================================================================== *)
(** ** The form and the plugin *)
(* ================================================================== *)

(** The form of [get_form] fits the plugin: its three input models are the
    keys of the default data, in the same order; the values its select
    offers are exactly the intervals for which [setup_scheduler] arms a
    timer; and [init_plugin] with the default data, on any plugin, takes the
    disabled path: it keeps the domain list, sets the interval ["1hour"] and
    only strips the file. *)
Theorem get_form_fits_plugin (net : Net) (w : World) :
  flat_map (values_at "model") (fst get_form) = keys_of (snd get_form)
  /\ keys_of (snd get_form)
     = ["enabled"%string; "domain_list"%string; "schedule_interval"%string]
  /\ (forall v, In v (flat_map (values_at "value") (fst get_form))
                <-> interval_of (Some v) <> None)
  /\ config_of (snd get_form)
     = Some (mkConfig (Some false) (Some EmptyString) (Some "1hour"%string))
  /\ init_plugin net (config_of (snd get_form)) w
     = (Returned tt,
        mkWorld (mkBetterHosts false (_domain_list (self w))
                               (_github_host_url (self w)) (_dns_api (self w))
                               (_scheduler (self w)) (Some "1hour"%string))
                (fs_after_clear (fs w))
                (trace w ++ clear_events (fs w))).
Proof.
  split; [reflexivity|]. split; [reflexivity|]. split; [|split; [reflexivity|]].
  - intros v.
    change (flat_map (values_at "value") (fst get_form))
      with ["1hour"%string; "1day"%string; "1week"%string].
    unfold interval_of. split.
    + intros [<-|[<-|[<-|[]]]]; discriminate.
    + intros H.
      destruct (v =? "1hour")%string eqn:E1;
        [apply String.eqb_eq in E1; left; congruence|].
      destruct (v =? "1day")%string eqn:E2;
        [apply String.eqb_eq in E2; right; left; congruence|].
      destruct (v =? "1week")%string eqn:E3;
        [apply String.eqb_eq in E3; right; right; left; congruence|].
      congruence.
  - change (config_of (snd get_form))
      with (Some (mkConfig (Some false) (Some EmptyString) (Some "1hour"%string))).
    destruct (init_plugin_disabled_eq net
                (mkConfig (Some false) (Some EmptyString) (Some "1hour"%string))
                w eq_refl eq_refl) as (H & _).
    exact H.
Qed.

Lemma get_form_fits_plugin_witness :
  interval_of (Some "1day"%string) <> None.
Proof.
  destruct (get_form_fits_plugin offline_net scenario_world)
    as (_ & _ & H & _).
  apply (H "1day"%string). right. left. reflexivity.
Defined.

(* ================================================================== *)
(** ** Failures inside the update cycle *)
(* ================================================================== *)








(* ================================================================== *)
(** ** The block, line by line *)
(* ================================================================== *)

(** C5, as stated, fails where it says that a domain whose resolution
    failed appears nowhere in the block: the bulk text is taken as it is,
    and here it names the domain whose lookup was answered 500. *)
Lemma failed_domain_named_by_bulk_text :
  resolveDomain bulk_names_domain_net (_dns_api scenario_plugin)
                "x.example.com" = None
  /\ fst (fetch_hosts_content bulk_names_domain_net scenario_world)
     = Returned ([("1.2.3.4" ++ tab ++ "x.example.com")%string],
                 ["x.example.com"%string])
  /\ existsb (contains "x.example.com")
             (buildBlock bulk_names_domain_net scenario_plugin) = true.
Proof.
  vm_compute. repeat split; reflexivity.
Qed.

(** C5, amended.  The block that [update_hosts] builds is a bulk segment
    followed by the lines of the configured domains in the order of the
    domain list, one line [address<TAB>domain] per address in the order of
    the answer.  The bulk segment is empty when the bulk request raised and
    is the text of the response, as it is, when the response has status 200.
    A domain whose lookup failed (exception or a status other than 200) or
    gave no address contributes no line of its own: the block is the one
    built without that domain.  With room on a writable file, the block goes
    between the two markers behind the previous content. *)
Theorem update_hosts_block_lines_in_order (net : Net) (w : World) :
  (exists errs w',
     fetch_hosts_content net w = (Returned (buildBlock net (self w), errs), w'))
  /\ (exists bulk,
        buildBlock net (self w)
        = bulk
          ++ flat_map
               (fun domain =>
                  match resolveDomain net (_dns_api (self w)) domain with
                  | Some ips => map (fun ip => (ip ++ tab ++ domain)%string) ips
                  | None => []
                  end)
               (_domain_list (self w))
        /\ (net (_github_host_url (self w)) = None -> bulk = [])
        /\ (forall r, net (_github_host_url (self w)) = Some r ->
                      status_code r = 200%Z -> bulk = [text r]))
  /\ (writable (fs w) = true -> buildBlock net (self w) <> [] ->
      String.length (block_text (buildBlock net (self w))) <= free (fs w) ->
      hosts (fs (snd (update_hosts net w)))
      = Some (text_of (fs w) ++ (START_MARKER ++ nl)
                ++ PyStr.join nl (buildBlock net (self w))
                ++ (nl ++ END_MARKER ++ nl))%string)
  /\ (forall d,
        resolveDomain net (_dns_api (self w)) d = None
        \/ resolveDomain net (_dns_api (self w)) d = Some [] ->
        domain_lines net (_dns_api (self w)) d = []
        /\ buildBlock net (with_domain_list (self w)
                             (without d (_domain_list (self w))))
           = buildBlock net (self w)).
Proof.
  split.
  { exists (failed_domains net (self w)). eexists.
    apply fetch_hosts_content_exact. }
  split.
  { exists (bulk_segment net (_github_host_url (self w))).
    split; [reflexivity|]. unfold bulk_segment.
    split; [intros ->; reflexivity|]. intros r -> _. reflexivity. }
  split.
  { intros Hw Hblock Hfit. rewrite update_hosts_exact. cbn [snd fs].
    rewrite (fs_after_update_appends net w Hw Hblock Hfit). reflexivity. }
  intros d Hd.
  assert (Hlines : domain_lines net (_dns_api (self w)) d = []).
  { unfold domain_lines. destruct Hd as [-> | ->]; reflexivity. }
  split; [exact Hlines|].
  unfold buildBlock, with_domain_list.
  cbn [_github_host_url _dns_api _domain_list].
  rewrite (flat_map_without _ d _ Hlines). reflexivity.
Qed.

Lemma update_hosts_block_lines_in_order_witness :
  fst (fetch_hosts_content scenario_net scenario_world)
  = Returned (scenario_block, [])
  /\ buildBlock failing_lookup_net
                (with_domain_list scenario_plugin
                                  (without "x.example.com" ["x.example.com"%string]))
     = buildBlock failing_lookup_net scenario_plugin.
Proof.
  split.
  - destruct (update_hosts_block_lines_in_order scenario_net scenario_world)
      as (_ & (bulk & Hb & _ & Hok) & _).
    rewrite fetch_hosts_content_exact. cbn [fst]. rewrite Hb.
    rewrite (Hok (mkResponse 200 ("1.2.3.4" ++ tab ++ "foo.bar") json_error)
                 eq_refl eq_refl).
    reflexivity.
  - destruct (update_hosts_block_lines_in_order failing_lookup_net scenario_world)
      as (_ & _ & _ & H).
    apply (H "x.example.com"%string). left. reflexivity.
Defined.

(* ================================================================== *)
(** ** A bulk answer that is an error *)
(* ================================================================== *)

(** C6.  The claim says that when the bulk fetch fails and no domain
    resolves, the hosts file is not touched.  [update_hosts] asks the lookup
    of a domain for status 200 and asks the bulk response for nothing: here
    the bulk request is answered 404 and every lookup raises, and the body
    of the error page is written into the file between the two markers. *)
Theorem bulk_error_page_is_written :
  let r := update_hosts bulk_not_found_net scenario_world in
  resolveDomain bulk_not_found_net (_dns_api scenario_plugin) "x.example.com"
  = None
  /\ fst r = Returned tt
  /\ existsb is_file_write (trace (snd r)) = true
  /\ hosts (fs (snd r))
     = Some (localhost_line ++ (START_MARKER ++ nl) ++ "404 page not found"
               ++ (nl ++ END_MARKER ++ nl))%string
  /\ hosts (fs (snd r)) <> hosts (fs scenario_world).
Proof.
  vm_compute. repeat split; try reflexivity. discriminate.
Qed.

(* ================================================================== *)
(** ** A domain list configured earlier *)
(* ================================================================== *)

(** C10, as stated, fails on a plugin that was configured with a domain
    before: with an empty text the list stays the configured one, which is
    not the built-in default. *)
Lemma init_plugin_keeps_configured_list :
  let w0 := fresh_world localhost_line 0 in
  let w1 := snd (init_plugin offline_net (Some custom_domain_config) w0) in
  let w2 := snd (init_plugin offline_net (Some no_domains_config) w1) in
  get (domain_list no_domains_config) EmptyString = EmptyString
  /\ _domain_list (self w2) = ["a.com"%string]
  /\ _domain_list (self w2)
     <> ["api.themoviedb.org"%string; "image.tmdb.org"%string].
Proof.
  vm_compute. repeat split; try reflexivity. discriminate.
Qed.
